(** * AI SEO Auditor: the React front end, embedded and verified

    The repository's source is its front end: [ReportDisplay.jsx] (the report
    viewer and its colour bands), [InputForm.jsx] (the URL form) and
    [Dashboard.jsx] (the two calls to the back end and the page state).

    Values are the ones [response.json()] can produce, plus [undefined] for a
    missing property.  Components are functions from props to a virtual DOM
    tree, or to a throw; event handlers are programs of a small
    state-and-exception monad that records every observable effect (state
    setters, network requests, DOM calls) in a log. *)

From Stdlib Require Import ZArith String List Ascii Bool DecimalString Lia.
Import ListNotations.
Open Scope string_scope.
Open Scope Z_scope.
Set Warnings "-register-all".

(** ** JavaScript values *)

Module JS.

(** A JSON value.  [JNum n] is the number whose value is the integer [n];
    the model is exact for the integers a double represents and prints in
    plain decimal notation.  An object lists its own properties in
    enumeration order; a lookup takes the first entry of a name. *)
Inductive jsval : Type :=
| JUndef
| JNull
| JBool (b : bool)
| JNum (n : Z)
| JStr (s : string)
| JArr (items : list jsval)
| JObj (fields : list (string * jsval)).

(** A render that throws.  Which exception it is (a [TypeError] of the
    engine, React's error for an invalid child) is not told apart. *)
Inductive failure : Type :=
| Thrown.

Definition result (A : Type) : Type := (failure + A)%type.
Definition Ok {A : Type} (a : A) : result A := inr a.
Definition Throw {A : Type} (e : failure) : result A := inl e.

Definition bind {A B : Type} (m : result A) (k : A -> result B) : result B :=
  match m with
  | inl e => inl e
  | inr a => k a
  end.

Declare Scope result_scope.
Delimit Scope result_scope with result.
Notation "x <- m ;; k" := (bind m (fun x => k))
  (at level 61, m at next level, right associativity) : result_scope.
Open Scope result_scope.

(** [xs.map(f)] where [f] may throw: the first throw aborts the loop. *)
Fixpoint mapM {A B : Type} (f : A -> result B) (xs : list A) : result (list B) :=
  match xs with
  | [] => Ok []
  | x :: rest =>
      y <- f x ;; ys <- mapM f rest ;; Ok (y :: ys)
  end.

(** ToBoolean: the falsy values are [undefined], [null], [false], [0] and
    the empty string. *)
Definition truthy (v : jsval) : bool :=
  match v with
  | JUndef | JNull => false
  | JBool b => b
  | JNum n => negb (n =? 0)
  | JStr s => negb (s =? "")%string
  | JArr _ | JObj _ => true
  end.

Fixpoint lookup (name : string) (fields : list (string * jsval)) : option jsval :=
  match fields with
  | [] => None
  | (k, v) :: rest => if (k =? name)%string then Some v else lookup name rest
  end.

(** The value of a property of an object, [undefined] when it has none. *)
Definition field (name : string) (fields : list (string * jsval)) : jsval :=
  match lookup name fields with
  | Some v => v
  | None => JUndef
  end.

(** [v.name] for a property name that no string, number, boolean or array
    has of its own: reading it off [null] or [undefined] throws, an object
    gives the property or [undefined], anything else gives [undefined]. *)
Definition get (v : jsval) (name : string) : result jsval :=
  match v with
  | JUndef | JNull => Throw Thrown
  | JObj fields => Ok (field name fields)
  | _ => Ok JUndef
  end.

(** Number to string, for integers. *)
Definition Z_to_string (n : Z) : string := NilZero.string_of_int (Z.to_int n).

(** ToString.  [Array.prototype.join] prints [null] and [undefined] items as
    the empty string. *)
Fixpoint toString (v : jsval) : string :=
  match v with
  | JUndef => "undefined"
  | JNull => "null"
  | JBool true => "true"
  | JBool false => "false"
  | JNum n => Z_to_string n
  | JStr s => s
  | JArr items =>
      String.concat ","
        (map (fun x => match x with
                       | JUndef | JNull => ""
                       | _ => toString x
                       end) items)
  | JObj _ => "[object Object]"
  end.

(** [Object.entries(v)]: throws on [null] and [undefined]; an object gives
    its properties, an array its items under their indices, a string its
    characters under their indices, a number or boolean nothing. *)
Fixpoint indexed {A : Type} (i : nat) (xs : list A) : list (string * A) :=
  match xs with
  | [] => []
  | x :: rest => (Z_to_string (Z.of_nat i), x) :: indexed (S i) rest
  end.

(** A string is held as the UTF-8 bytes of its text, and JavaScript
    counts it in UTF-16 code units: a character of one to three bytes is
    one unit, a character of four bytes is two units, its surrogates.  A
    surrogate on its own is held as the three bytes of its code point. *)
Definition unit_bytes (u : N) : string :=
  String (ascii_of_N (224 + u / 4096))
    (String (ascii_of_N (128 + (u / 64) mod 64))
       (String (ascii_of_N (128 + u mod 64)) EmptyString)).

Definition surrogates (b0 b1 b2 b3 : ascii) : list string :=
  let point :=
    ((N_of_ascii b0 mod 8) * 262144 + (N_of_ascii b1 mod 64) * 4096
     + (N_of_ascii b2 mod 64) * 64 + N_of_ascii b3 mod 64)%N in
  let offset := (point - 65536)%N in
  [ unit_bytes (55296 + offset / 1024); unit_bytes (56320 + offset mod 1024) ].

(** The units of [s], after the [pending] bytes of a character that still
    [need]s some continuation bytes. *)
Fixpoint code_units (s : string) (pending : list ascii) (need : nat) : list string :=
  match s with
  | EmptyString =>
      match pending with
      | [] => []
      | _ => [string_of_list_ascii pending]
      end
  | String b rest =>
      match need with
      | O =>
          let lead := N_of_ascii b in
          if (lead <? 192)%N then String b EmptyString :: code_units rest [] 0
          else if (lead <? 224)%N then code_units rest [b] 1
          else if (lead <? 240)%N then code_units rest [b] 2
          else code_units rest [b] 3
      | S O =>
          match pending with
          | [b0; b1; b2] => (surrogates b0 b1 b2 b ++ code_units rest [] 0)%list
          | _ => string_of_list_ascii (pending ++ [b]) :: code_units rest [] 0
          end
      | S more => code_units rest (pending ++ [b]) more
      end
  end.

(** The characters [Object.entries] finds in a string: its code units. *)
Definition chars (s : string) : list jsval :=
  map JStr (code_units s [] 0).

Definition entries (v : jsval) : result (list (string * jsval)) :=
  match v with
  | JUndef | JNull => Throw Thrown
  | JObj fields => Ok fields
  | JArr items => Ok (indexed 0 items)
  | JStr s => Ok (indexed 0 (chars s))
  | JBool _ | JNum _ => Ok []
  end.

(** [key.replace(/_/g, ' ')]. *)
Fixpoint replace_underscores (s : string) : string :=
  match s with
  | EmptyString => EmptyString
  | String c rest =>
      String (if (c =? "_")%char then " "%char else c) (replace_underscores rest)
  end.

Section Coercion.

(** [string_ge s k] is [s >= k] for a string [s] and a number [k], that is
    the comparison after the engine's StringToNumber conversion (decimal,
    hexadecimal and exponent literals, [Infinity], rounding to a double);
    the source leaves it to the language and the model takes it as given. *)
Variable string_ge : string -> Z -> bool.

(** [v >= k] for a number [k]: [undefined] is [NaN], [null] is [0], a
    boolean is [0] or [1], an array or object is converted to its string. *)
Definition ge (v : jsval) (k : Z) : bool :=
  match v with
  | JUndef => false
  | JNull => k <=? 0
  | JBool b => k <=? Z.b2z b
  | JNum n => k <=? n
  | JStr s => string_ge s k
  | JArr _ | JObj _ => string_ge (toString v) k
  end.

End Coercion.

End JS.

Import JS.
Open Scope result_scope.

(** ** Virtual DOM *)

(** What a component returns: text, or an element with its tag, its
    [className] and its children.  The [disabled] flag is kept for buttons;
    keys, ids, SVG geometry and event handlers are not part of the tree. *)
Inductive vnode : Type :=
| Text (s : string)
| Elem (tag className : string) (children : list vnode)
| Button (className : string) (disabled : bool) (children : list vnode).

(** The text a reader sees: the text nodes in document order. *)
Fixpoint textContent (v : vnode) : string :=
  match v with
  | Text s => s
  | Elem _ _ children => String.concat "" (map textContent children)
  | Button _ _ children => String.concat "" (map textContent children)
  end.

(** A JSON value in child position, [{value}]: strings and numbers become
    text, [null], [undefined] and booleans render nothing, an array renders
    its items, and React throws on a plain object. *)
Fixpoint child (v : jsval) : result (list vnode) :=
  match v with
  | JUndef | JNull | JBool _ => Ok []
  | JNum n => Ok [Text (Z_to_string n)]
  | JStr s => Ok [Text s]
  | JArr items =>
      groups <- mapM child items ;; Ok (concat groups)
  | JObj _ => Throw Thrown
  end.

(** [{cond && element}]: a falsy [cond] is itself the child, and a falsy
    string, [null] or [undefined] shows no text. *)
Definition and_then (cond : jsval) (element : vnode) : list vnode :=
  if truthy cond then [element]
  else match cond with
       | JNum n => [Text (Z_to_string n)]
       | _ => []
       end.

(** An [error] cell of [useState]: [null] or a string. *)
Definition error_value (e : option string) : jsval :=
  match e with
  | Some s => JStr s
  | None => JNull
  end.

Definition error_text (e : option string) : string :=
  match e with
  | Some s => s
  | None => ""
  end.

(** ** ReportDisplay.jsx *)

Section ReportDisplay.

Variable string_ge : string -> Z -> bool.

Definition getScoreColor (score : jsval) : string :=
  if ge string_ge score 80 then "bg-green-500"
  else if ge string_ge score 60 then "bg-yellow-500"
  else "bg-red-500".

(** The [switch] compares with [===]: only the three strings match. *)
Definition getPriorityColor (priority : jsval) : string :=
  match priority with
  | JStr s =>
      if (s =? "High")%string then "bg-red-100 text-red-800"
      else if (s =? "Medium")%string then "bg-yellow-100 text-yellow-800"
      else if (s =? "Low")%string then "bg-green-100 text-green-800"
      else "bg-gray-100 text-gray-800"
  | _ => "bg-gray-100 text-gray-800"
  end.

Definition placeholder : vnode :=
  Elem "div" "text-center text-gray-500" [Text "No SEO report data to display."].

(** [xs.map(f)] on a value: only an array has [map]. *)
Definition map_array {B : Type} (v : jsval) (f : jsval -> result B) : result (list B) :=
  match v with
  | JArr items => mapM f items
  | _ => Throw Thrown
  end.

(** Header and Score *)
Definition header_block (overall_seo_score : jsval) : result vnode :=
  score <- child overall_seo_score ;;
  Ok (Elem "div" "flex justify-between items-start border-b pb-4 mb-6"
        [ Elem "div" ""
            [ Elem "h1" "text-3xl font-extrabold text-gray-900 flex items-center"
                [ Elem "span" "mr-2" [Text "✨"]; Text " AI SEO Audit Complete" ];
              Elem "p" "text-sm text-gray-500 mt-1"
                [ Text "Autonomous analysis powered by Gemini." ] ];
          Elem "div"
            ("p-4 rounded-full " ++ getScoreColor overall_seo_score
               ++ " text-white font-bold text-4xl shadow-lg")
            (score ++ [ Elem "span" "text-sm" [Text "/100"] ]) ]).

(** Summary *)
Definition summary_block (summary : jsval) : result vnode :=
  text <- child summary ;;
  Ok (Elem "div" "mb-8 p-4 bg-blue-50 border-l-4 border-blue-400 rounded-md"
        [ Elem "h2" "text-xl font-semibold text-blue-800 mb-2" [Text "Overall Summary"];
          Elem "p" "text-gray-700" text ]).

(** Issues Table: one row per item of [issues_found]. *)
Definition issue_row (issue : jsval) : result vnode :=
  name <- get issue "issue" ;;
  description <- get issue "description" ;;
  priority <- get issue "priority" ;;
  recommended_action <- get issue "recommended_action" ;;
  name' <- child name ;;
  description' <- child description ;;
  priority' <- child priority ;;
  recommended_action' <- child recommended_action ;;
  Ok (Elem "tr" ""
        [ Elem "td" "px-6 py-4 whitespace-nowrap"
            [ Elem "div" "text-sm font-medium text-gray-900" name';
              Elem "div" "text-xs text-gray-500" description' ];
          Elem "td" "px-6 py-4 whitespace-nowrap"
            [ Elem "span"
                ("px-2 inline-flex text-xs leading-5 font-semibold rounded-full "
                   ++ getPriorityColor priority)
                priority' ];
          Elem "td" "px-6 py-4"
            [ Elem "p" "text-sm text-gray-600" recommended_action' ] ]).

Definition table_heading (label : string) : vnode :=
  Elem "th" "px-6 py-3 text-left text-xs font-medium text-gray-500 uppercase tracking-wider"
    [Text label].

Definition issues_table (rows : list vnode) : vnode :=
  Elem "div" "overflow-x-auto shadow-md rounded-lg mb-8"
    [ Elem "table" "min-w-full divide-y divide-gray-200"
        [ Elem "thead" "bg-gray-50"
            [ Elem "tr" ""
                [ table_heading "Issue";
                  table_heading "Priority";
                  table_heading "Recommended Action" ] ];
          Elem "tbody" "bg-white divide-y divide-gray-200" rows ] ].

(** Technical Evaluation: one line per entry of the mapping. *)
Definition evaluation_row (entry : string * jsval) : result vnode :=
  let (key, value) := entry in
  value' <- child value ;;
  Ok (Elem "div" "flex justify-between py-2 border-b"
        [ Elem "span" "font-semibold text-gray-700 capitalize"
            [ Text (replace_underscores key); Text ":" ];
          Elem "span" "text-gray-600" value' ]).

Definition keyword_tag (keyword : jsval) : result vnode :=
  keyword' <- child keyword ;;
  Ok (Elem "span" "px-3 py-1 bg-purple-200 text-purple-800 text-xs font-medium rounded-full"
        keyword').

(** Technical Evaluation & Forecast *)
Definition evaluation_grid
    (technical_seo_evaluation ranking_forecast keyword_strategy_suggestions : jsval)
    : result vnode :=
  checks <- entries technical_seo_evaluation ;;
  rows <- mapM evaluation_row checks ;;
  forecast <- child ranking_forecast ;;
  tags <- map_array keyword_strategy_suggestions keyword_tag ;;
  Ok (Elem "div" "grid grid-cols-1 lg:grid-cols-2 gap-8 mb-8"
        [ Elem "div" ""
            (Elem "h2" "text-2xl font-bold text-gray-800 mb-4" [Text "⚙️ Technical Evaluation"]
               :: rows);
          Elem "div" ""
            [ Elem "h2" "text-2xl font-bold text-gray-800 mb-4"
                [Text "📈 Ranking Forecast & Keywords"];
              Elem "div" "mb-4 p-3 bg-indigo-50 rounded-lg"
                [ Elem "h3" "font-semibold text-indigo-800" [Text "Forecast:"];
                  Elem "p" "text-sm text-gray-700" forecast ];
              Elem "div" "p-3 bg-purple-50 rounded-lg"
                [ Elem "h3" "font-semibold text-purple-800 mb-2" [Text "Keyword Suggestions:"];
                  Elem "div" "flex flex-wrap gap-2" tags ] ] ]).

(** Download Button *)
Definition download_label (isLoading : bool) : string :=
  if isLoading then "Generating PDF..." else "Download Professional SEO Report (PDF)".

Definition download_button (isLoading : bool) : vnode :=
  Button
    ("w-full lg:w-auto mt-6 px-8 py-3 text-white font-semibold rounded-lg transition duration-150 shadow-md flex items-center justify-center "
       ++ (if isLoading then "bg-indigo-400 cursor-not-allowed"
           else "bg-indigo-600 hover:bg-indigo-700"))
    isLoading
    (if isLoading
     then [ Elem "svg" "animate-spin -ml-1 mr-3 h-5 w-5 text-white"
              [ Elem "circle" "opacity-25" []; Elem "path" "opacity-75" [] ];
            Text (download_label true) ]
     else [ Elem "svg" "w-5 h-5 mr-2" [ Elem "path" "" [] ];
            Text (download_label false) ]).

(** Everything above the download button, in document order. *)
Definition report_sections (report : jsval) : result (list vnode) :=
  overall_seo_score <- get report "overall_seo_score" ;;
  summary <- get report "summary" ;;
  issues_found <- get report "issues_found" ;;
  keyword_strategy_suggestions <- get report "keyword_strategy_suggestions" ;;
  technical_seo_evaluation <- get report "technical_seo_evaluation" ;;
  ranking_forecast <- get report "ranking_forecast" ;;
  header <- header_block overall_seo_score ;;
  summary' <- summary_block summary ;;
  rows <- map_array issues_found issue_row ;;
  grid <- evaluation_grid technical_seo_evaluation ranking_forecast
            keyword_strategy_suggestions ;;
  Ok [ header;
       summary';
       Elem "h2" "text-2xl font-bold text-gray-800 mb-4" [Text "🎯 Issues Found & Actions"];
       issues_table rows;
       grid ].

(** The component.  [!report || !report.overall_seo_score] short-circuits,
    so the score is read only off a truthy report. *)
Definition ReportDisplay (report : jsval) (isLoading : bool) : result vnode :=
  if negb (truthy report) then Ok placeholder
  else
    score <- get report "overall_seo_score" ;;
    if negb (truthy score) then Ok placeholder
    else
      sections <- report_sections report ;;
      Ok (Elem "div" "bg-white shadow-xl rounded-lg p-6 lg:p-10 mt-8 border border-gray-200"
            (sections ++ [download_button isLoading])).

End ReportDisplay.

(** ** InputForm.jsx *)

(** The form's own state: [url] and [error] ([None] is [null]). *)
Record form : Type := {
  form_url : string;
  form_error : option string
}.

(** What [handleSubmit] does, in order. *)
Inductive form_event : Type :=
| PreventDefault
| SetFormError (e : option string)
| OnAnalyze (url : string).

Definition set_form_error (e : option string) (st : form) : form :=
  {| form_url := form_url st; form_error := e |}.

(** [url.startsWith(p)]. *)
Definition startsWith (url p : string) : bool := prefix p url.

Definition handleSubmit (st : form) : form * list form_event :=
  let url := form_url st in
  if negb (startsWith url "http://") && negb (startsWith url "https://")
  then
    (set_form_error
       (Some "Please enter a valid URL starting with http:// or https://")
       (set_form_error None st),
     [ PreventDefault;
       SetFormError None;
       SetFormError (Some "Please enter a valid URL starting with http:// or https://") ])
  else
    (set_form_error None st,
     [ PreventDefault; SetFormError None; OnAnalyze url ]).

(** The form as rendered.  The input's [value] is an attribute, not text. *)
Definition InputForm (st : form) (isLoading : bool) : vnode :=
  Elem "div" "max-w-xl mx-auto p-8 bg-white shadow-xl rounded-xl border border-gray-200"
    [ Elem "h2" "text-2xl font-bold text-gray-800 mb-2" [Text "Autonomous SEO Audit"];
      Elem "p" "text-gray-500 mb-6"
        [Text "Enter a website URL to initiate the Gemini-powered analysis."];
      Elem "form" ""
        ([ Elem "div" "mb-4"
             [ Elem "label" "block text-sm font-medium text-gray-700"
                 [Text "Website URL (e.g., https://example.com)"];
               Elem "input"
                 "mt-1 block w-full px-4 py-2 border border-gray-300 rounded-lg shadow-sm focus:ring-indigo-500 focus:border-indigo-500 text-gray-900"
                 [] ] ]
         ++ and_then (error_value (form_error st))
              (Elem "div" "p-3 mb-4 text-sm text-red-700 bg-red-100 rounded-lg"
                 [Text (error_text (form_error st))])
         ++ [ Button
                ("w-full flex justify-center py-3 px-4 border border-transparent rounded-lg shadow-sm text-sm font-medium text-white transition duration-150 "
                   ++ (if isLoading then "bg-indigo-400 cursor-not-allowed"
                       else "bg-indigo-600 hover:bg-indigo-700 focus:outline-none focus:ring-2 focus:ring-offset-2 focus:ring-indigo-500"))
                isLoading
                (if isLoading
                 then [ Elem "div" "flex items-center"
                          [ Elem "svg" "animate-spin -ml-1 mr-3 h-5 w-5 text-white"
                              [ Elem "circle" "opacity-25" []; Elem "path" "opacity-75" [] ];
                            Text "Analyzing SEO... (May take 10-20s)" ] ]
                 else [ Text "Analyze Website" ]) ]) ].

(** ** Dashboard.jsx *)

(** An [Error] object: the handlers read [message] only. *)
Record exn : Type := {
  message : string;
  stack : string
}.

(** A [Response]: its status flag and what each way of reading the body
    gives, a rejection (the stream fails, the text is not JSON) or a
    value.  The body can be read once. *)
Record response : Type := {
  ok : bool;
  json_body : exn + jsval;
  text_body : exn + string;
  blob_body : exn + string
}.

(** A [Date], by its UTC calendar fields as [toISOString] prints them
    ([month] counts from 1). *)
Record date : Type := {
  year : Z;
  month : Z;
  day : Z;
  hours : Z;
  minutes : Z;
  seconds : Z;
  milliseconds : Z
}.

(** What the handlers get from outside: the network's answer to a request
    (a rejection or a response), the clock, the object URL the browser
    hands out, and the errors the engine itself throws. *)
Record env : Type := {
  network : string -> jsval -> exn + response;
  now : date;
  object_url : string -> string;
  body_used_error : exn;
  null_access_error : exn;
  new_error_stack : string
}.

(** The page state of [Dashboard]: three [useState] cells. *)
Record state : Type := {
  reportData : jsval;
  isLoading : bool;
  error : option string
}.

Inductive console_arg : Type :=
| LogText (s : string)
| LogError (e : exn).

(** The effects of a handler, in the order they happen.  A request's body
    is logged as the value given to [JSON.stringify]. *)
Inductive event : Type :=
| SetIsLoading (b : bool)
| SetReportData (v : jsval)
| SetError (e : option string)
| Fetch (url method : string) (body : jsval)
| ConsoleError (label : string) (arg : console_arg)
| CreateObjectURL (blob : string)
| AppendChild
| Click (href download : string)
| Remove
| RevokeObjectURL (url : string).

Record world : Type := {
  page : state;
  log : list event;
  bodyUsed : bool
}.

(** A handler: it runs in a world, ends normally or by a throw, and leaves
    a world. *)
Definition M (A : Type) : Type := world -> (exn + A) * world.

Definition ret {A : Type} (a : A) : M A := fun w => (inr a, w).

Definition throw {A : Type} (e : exn) : M A := fun w => (inl e, w).

Definition bindM {A B : Type} (m : M A) (k : A -> M B) : M B :=
  fun w =>
    match m w with
    | (inl e, w') => (inl e, w')
    | (inr a, w') => k a w'
    end.

Declare Scope handler_scope.
Delimit Scope handler_scope with handler.
Notation "x <- m ;; k" := (bindM m (fun x => k))
  (at level 61, m at next level, right associativity) : handler_scope.
Notation "m ;; k" := (bindM m (fun _ => k))
  (at level 61, right associativity) : handler_scope.

(** [try { body } catch (err) { handler err } finally { final }]. *)
Definition try_catch_finally (body : M unit) (handler : exn -> M unit) (final : M unit)
    : M unit :=
  fun w =>
    let (outcome, w1) :=
      match body w with
      | (inl err, w') => handler err w'
      | done => done
      end in
    match final w1 with
    | (inl e, w2) => (inl e, w2)
    | (inr _, w2) => (outcome, w2)
    end.

Definition emit (e : event) : M unit :=
  fun w => (inr tt, {| page := page w; log := log w ++ [e]; bodyUsed := bodyUsed w |}).

Definition update (f : state -> state) : M unit :=
  fun w => (inr tt, {| page := f (page w); log := log w; bodyUsed := bodyUsed w |}).

Definition read : M state := fun w => (inr (page w), w).

Definition setIsLoading (b : bool) : M unit :=
  (emit (SetIsLoading b) ;;
   update (fun st => {| reportData := reportData st; isLoading := b; error := error st |}))%handler.

Definition setReportData (v : jsval) : M unit :=
  (emit (SetReportData v) ;;
   update (fun st => {| reportData := v; isLoading := isLoading st; error := error st |}))%handler.

Definition setError (e : option string) : M unit :=
  (emit (SetError e) ;;
   update (fun st => {| reportData := reportData st; isLoading := isLoading st; error := e |}))%handler.

Section Dashboard.

Variable string_ge : string -> Z -> bool.
Variable world_env : env.

Open Scope handler_scope.

Definition API_BASE_URL : string := "http://localhost:8000".

(** [a || b] on strings: the empty string is falsy. *)
Definition or_else (a b : string) : string :=
  if (a =? "")%string then b else a.

(** [new Error(msg)]. *)
Definition new_Error (msg : string) : exn :=
  {| message := msg; stack := new_error_stack world_env |}.

(** [await fetch(url, { method: 'POST', ..., body: JSON.stringify(body) })]:
    the request is sent, and the promise rejects or gives a fresh response. *)
Definition fetch (url : string) (body : jsval) : M response :=
  emit (Fetch url "POST" body) ;;
  fun w =>
    match network world_env url body with
    | inl e => (inl e, w)
    | inr r => (inr r, {| page := page w; log := log w; bodyUsed := false |})
    end.

(** Reading the body a second time rejects. *)
Definition consume_body {A : Type} (content : exn + A) : M A :=
  fun w =>
    if bodyUsed w then (inl (body_used_error world_env), w)
    else (content, {| page := page w; log := log w; bodyUsed := true |}).

Definition response_json (r : response) : M jsval := consume_body (json_body r).
Definition response_text (r : response) : M string := consume_body (text_body r).
Definition response_blob (r : response) : M string := consume_body (blob_body r).

(** [data.name] inside a handler. *)
Definition prop (data : jsval) (name : string) : M jsval :=
  match get data name with
  | inl _ => throw (null_access_error world_env)
  | inr v => ret v
  end.

Definition when (b : bool) (m : M unit) : M unit :=
  if b then m else ret tt.

Definition handleAnalyze (url : string) : M unit :=
  setIsLoading true ;;
  setReportData JNull ;;
  setError None ;;
  try_catch_finally
    (response <- fetch (API_BASE_URL ++ "/analyze") (JObj [("url", JStr url)]) ;;
     data <- response_json response ;;
     when (negb (ok response))
       (errorMessage <- response_text response ;;
        emit (ConsoleError "Backend Error:" (LogText errorMessage)) ;;
        throw (new_Error (or_else errorMessage "Failed to get SEO analysis from backend."))) ;;
     seo_report <- prop data "seo_report" ;;
     setReportData seo_report)
    (fun err =>
       emit (ConsoleError "Analysis Error:" (LogError err)) ;;
       setError (Some (or_else (message err) "An unexpected error occurred during analysis.")))
    (setIsLoading false).

(** Zero padding to a width, as [toISOString] prints its fields. *)
Definition pad (width : nat) (n : Z) : string :=
  let digits := Z_to_string n in
  String.concat "" (repeat "0" (width - String.length digits)) ++ digits.

(** [Date.prototype.toISOString]: a four-digit year from 0 to 9999, a sign
    and six digits outside. *)
Definition toISOString (d : date) : string :=
  (if (0 <=? year d) && (year d <=? 9999) then pad 4 (year d)
   else (if year d <? 0 then "-" else "+") ++ pad 6 (Z.abs (year d)))
  ++ "-" ++ pad 2 (month d) ++ "-" ++ pad 2 (day d)
  ++ "T" ++ pad 2 (hours d) ++ ":" ++ pad 2 (minutes d) ++ ":" ++ pad 2 (seconds d)
  ++ "." ++ pad 3 (milliseconds d) ++ "Z".

(** [s.slice(0, n)]. *)
Definition slice0 (n : nat) (s : string) : string := substring 0 n s.

Definition handleDownload : M unit :=
  st <- read ;;
  if negb (truthy (reportData st)) then
    setError (Some "No report data available to download.")
  else
    setError None ;;
    setIsLoading true ;;
    try_catch_finally
      (response <- fetch (API_BASE_URL ++ "/download") (JObj [("seo_report", reportData st)]) ;;
       when (negb (ok response))
         (errorText <- response_text response ;;
          throw (new_Error (or_else errorText "Failed to generate PDF."))) ;;
       blob <- response_blob response ;;
       emit (CreateObjectURL blob) ;;
       let url := object_url world_env blob in
       let download := "SEO_Report_" ++ slice0 10 (toISOString (now world_env)) ++ ".pdf" in
       emit AppendChild ;;
       emit (Click url download) ;;
       emit Remove ;;
       emit (RevokeObjectURL url))
      (fun err =>
         emit (ConsoleError "Download Error:" (LogError err)) ;;
         setError (Some (or_else (message err) "An error occurred during PDF download.")))
      (setIsLoading false).

Close Scope handler_scope.

Definition error_banner (e : string) : vnode :=
  Elem "div" "max-w-xl mx-auto p-4 mb-6 text-sm text-red-700 bg-red-100 rounded-lg shadow-md"
    [ Elem "strong" "" [Text "Error:"]; Text " "; Text e ].

Definition page_header : vnode :=
  Elem "header" "text-center mb-10"
    [ Elem "h1" "text-4xl font-extrabold text-gray-900"
        [ Elem "span" "text-indigo-600" [Text "AI"]; Text "-Powered SEO Auditor" ];
      Elem "p" "mt-2 text-lg text-gray-600"
        [ Text "Autonomous crawling, Gemini analysis, and professional PDF reporting." ] ].

Definition new_analysis : vnode :=
  Elem "div" "text-center mt-8"
    [ Button "text-indigo-600 hover:text-indigo-800 font-medium text-sm" false
        [Text "Start New Analysis"] ].

(** What [Dashboard] returns for a page state (and the state of the form
    it mounts). *)
Definition Dashboard (st : state) (input : form) : result vnode :=
  main <- (if negb (truthy (reportData st)) then Ok (InputForm input (isLoading st))
           else ReportDisplay string_ge (reportData st) (isLoading st)) ;;
  Ok (Elem "div" "min-h-screen bg-gray-50 py-12 px-4 sm:px-6 lg:px-8"
        [ Elem "div" "max-w-6xl mx-auto"
            ([page_header]
             ++ and_then (error_value (error st)) (error_banner (error_text (error st)))
             ++ [main]
             ++ and_then (reportData st) new_analysis) ]).

End Dashboard.

(** A handler run from a page state, with an empty log. *)
Definition run {A : Type} (m : M A) (st : state) : (exn + A) * world :=
  m {| page := st; log := []; bodyUsed := false |}.

Definition initial : state :=
  {| reportData := JNull; isLoading := false; error := None |}.

(** ** The Report Validator, as the specification words it *)

Module Validator.

Inductive SchemaError : Type :=
| Malformed
| InvalidJson
| FieldError (field : string).

(** Modelled from the spec: the Validator runs in the back end, which is
    not among the sources.  "Out-of-range values are clamped, not
    rejected." *)
Definition clamp (n : Z) : Z := Z.max 0 (Z.min 100 n).

(** Modelled from the spec: the first step of field validation, which is
    missing from the sources.  "[overall_seo_score]: must coerce to an
    integer in [0,100]; out-of-range values are clamped, not rejected, but
    a non-numeric value fails with [SchemaError{field: overall_seo_score}]."
    A value is numeric when it is a JSON number. *)
Definition validate_overall_seo_score (v : jsval) : SchemaError + Z :=
  match v with
  | JNum n => inr (clamp n)
  | _ => inl (FieldError "overall_seo_score")
  end.

Definition numeric (v : jsval) : bool :=
  match v with
  | JNum _ => true
  | _ => false
  end.








End Validator.

(** ** Reading rendered text *)

Definition lower (c : ascii) : ascii :=
  let n := nat_of_ascii c in
  if ((65 <=? n) && (n <=? 90))%nat then ascii_of_nat (n + 32) else c.

Fixpoint lowercase (s : string) : string :=
  match s with
  | EmptyString => EmptyString
  | String c rest => String (lower c) (lowercase rest)
  end.

(** [needle] occurs in [text], letter case aside. *)
Definition mentions (needle text : string) : bool :=
  match index 0 (lowercase needle) (lowercase text) with
  | Some _ => true
  | None => false
  end.

Definition children_of (v : vnode) : list vnode :=
  match v with
  | Text _ => []
  | Elem _ _ children => children
  | Button _ _ children => children
  end.

(** The visible outcome of a render: its text, or the throw. *)
Definition rendered_text (outcome : result vnode) : result string :=
  tree <- outcome ;; Ok (textContent tree).

(** ** URLs and dates, as the specification words them *)

(** The scheme of a URL and what follows its colon: the text before the
    first [:]. *)
Fixpoint split_scheme (url : string) : option (string * string) :=
  match url with
  | EmptyString => None
  | String c rest =>
      if (c =? ":")%char then Some (EmptyString, rest)
      else match split_scheme rest with
           | Some (scheme, tail) => Some (String c scheme, tail)
           | None => None
           end
  end.

(** An absolute URL of scheme http or https: the scheme, a colon, and an
    authority introduced by two slashes. *)
Definition absolute_http (url : string) : bool :=
  match split_scheme url with
  | Some (scheme, tail) =>
      ((scheme =? "http")%string || (scheme =? "https")%string) && prefix "//" tail
  | None => false
  end.

Definition digit (n : Z) : ascii := ascii_of_nat (48 + Z.to_nat (n mod 10)).

(** A calendar date in ISO 8601, YYYY-MM-DD, digit by digit. *)
Definition iso_date (y m d : Z) : string :=
  String (digit (y / 1000)) (String (digit (y / 100)) (String (digit (y / 10))
    (String (digit y) (String "-" (String (digit (m / 10)) (String (digit m)
      (String "-" (String (digit (d / 10)) (String (digit d) EmptyString))))))))).

(** The analyze boundary failed: the request threw, or the response has
    a non-success status. *)
Definition failed (answer : exn + response) : bool :=
  match answer with
  | inl _ => true
  | inr r => negb (ok r)
  end.

(** The page [Dashboard] shows around its error banners and main part. *)
Definition page_frame (content : list vnode) : vnode :=
  Elem "div" "min-h-screen bg-gray-50 py-12 px-4 sm:px-6 lg:px-8"
    [ Elem "div" "max-w-6xl mx-auto" content ].

(** ** The rest of the page's wiring *)

(** [onChange={(e) => setUrl(e.target.value)}] of the URL input. *)
Definition handleChange (value : string) (st : form) : form :=
  {| form_url := value; form_error := form_error st |}.

(** [onClick={() => setReportData(null)}] of "Start New Analysis". *)
Definition startNewAnalysis : M unit := setReportData JNull.

(** [<InputForm onAnalyze={handleAnalyze} />]: each call the form makes to
    [onAnalyze] runs [handleAnalyze]; the form does nothing after it. *)
Fixpoint onAnalyze_calls (world_env : env) (events : list form_event) : M unit :=
  match events with
  | [] => ret tt
  | OnAnalyze url :: rest =>
      bindM (handleAnalyze world_env url) (fun _ => onAnalyze_calls world_env rest)
  | _ :: rest => onAnalyze_calls world_env rest
  end.

(** A submission of the mounted form: the form's handler, then the calls
    it made. *)
Definition submit (world_env : env) (input : form) : M unit :=
  onAnalyze_calls world_env (snd (handleSubmit input)).

(** What a user can trigger on the page, and the handler each one runs. *)
Inductive action : Type :=
| Analyze (url : string)
| Download
| StartNew.

Definition handler (world_env : env) (a : action) : M unit :=
  match a with
  | Analyze url => handleAnalyze world_env url
  | Download => handleDownload world_env
  | StartNew => startNewAnalysis
  end.

(** The page state after a handler has run to its end. *)
Definition perform (st : state) (step : env * action) : state :=
  page (snd (run (handler (fst step) (snd step)) st)).

(** Handlers run one after another, each in the world of its moment. *)
Definition session (steps : list (env * action)) (st : state) : state :=
  fold_left perform steps st.

(** The buttons of a tree, in document order. *)
Fixpoint buttons (v : vnode) : list vnode :=
  match v with
  | Text _ => []
  | Elem _ _ children => flat_map buttons children
  | Button _ _ children => v :: flat_map buttons children
  end.

Definition is_fetch (e : event) : bool :=
  match e with
  | Fetch _ _ _ => true
  | _ => false
  end.

Definition is_click (e : event) : bool :=
  match e with
  | Click _ _ => true
  | _ => false
  end.

Definition is_array (v : jsval) : bool :=
  match v with
  | JArr _ => true
  | _ => false
  end.

(** [s] holds the character [c]. *)
Fixpoint has_char (c : ascii) (s : string) : bool :=
  match s with
  | EmptyString => false
  | String c' rest => (c' =? c)%char || has_char c rest
  end.

(** How an analysis ends, read off the answer of the network: with the
    error that reaches the [catch] block, or with the value to store. *)
Definition analysis_outcome (world_env : env) (url : string) : exn + jsval :=
  match network world_env (API_BASE_URL ++ "/analyze") (JObj [("url", JStr url)]) with
  | inl err => inl err
  | inr r =>
      match json_body r with
      | inl err => inl err
      | inr data =>
          if ok r then
            match get data "seo_report" with
            | inl _ => inl (null_access_error world_env)
            | inr seo_report => inr seo_report
            end
          else inl (body_used_error world_env)
      end
  end.

(** How a download of [report] ends: with the error that reaches the
    [catch] block, or with the blob to save. *)
Definition download_outcome (world_env : env) (report : jsval) : exn + string :=
  match network world_env (API_BASE_URL ++ "/download") (JObj [("seo_report", report)]) with
  | inl err => inl err
  | inr r =>
      if ok r then blob_body r
      else
        match text_body r with
        | inl err => inl err
        | inr errorText =>
            inl (new_Error world_env (or_else errorText "Failed to generate PDF."))
        end
  end.

(** ** Sample inputs *)

Definition sample_report (issues : list jsval) : jsval :=
  JObj [ ("overall_seo_score", JNum 72);
         ("summary", JStr "A solid page.");
         ("issues_found", JArr issues);
         ("technical_seo_evaluation", JObj [("mobile_friendly", JStr "Yes")]);
         ("keyword_strategy_suggestions", JArr [JStr "seo audit"]);
         ("ranking_forecast", JStr "Stable.") ].

Definition sample_issue : jsval :=
  JObj [ ("issue", JStr "Missing meta description");
         ("description", JStr "The page has no description tag.");
         ("priority", JStr "High");
         ("recommended_action", JStr "Add one.") ].

(** An engine in which no string counts as a number at least [k]; the
    samples carry numbers as scores, so it is never consulted on them. *)
Definition no_numeric_strings : string -> Z -> bool := fun _ _ => false.

Definition sample_exn (msg : string) : exn := {| message := msg; stack := "at <anonymous>" |}.

Definition sample_env (answer : exn + response) : env :=
  {| network := fun _ _ => answer;
     now := {| year := 2025; month := 3; day := 7;
               hours := 9; minutes := 5; seconds := 0; milliseconds := 42 |};
     object_url := fun _ => "blob:http://localhost:5173/1";
     body_used_error := sample_exn "body stream already read";
     null_access_error := sample_exn "Cannot read properties of null";
     new_error_stack := "Error at handleAnalyze" |}.

(** The same world at another moment. *)
Definition sample_env_at (moment : date) (answer : exn + response) : env :=
  {| network := network (sample_env answer);
     now := moment;
     object_url := object_url (sample_env answer);
     body_used_error := body_used_error (sample_env answer);
     null_access_error := null_access_error (sample_env answer);
     new_error_stack := new_error_stack (sample_env answer) |}.

Definition year_12025 : date :=
  {| year := 12025; month := 3; day := 7;
     hours := 9; minutes := 5; seconds := 0; milliseconds := 42 |}.

Definition pdf_response : response :=
  {| ok := true; json_body := inr JNull; text_body := inr ""; blob_body := inr "%PDF-1.4" |}.

(** A non-success answer of the back end, as FastAPI words a failure. *)
Definition crawl_failed : response :=
  {| ok := false;
     json_body := inr (JObj [("detail", JStr "Crawl failed")]);
     text_body := inr "Crawl failed";
     blob_body := inr "" |}.

(** * Properties *)

(** ** Colour bands *)

(** C1: for every integer score the header colour is green exactly when the
    score is at least 80, amber exactly when it is at least 60 and below 80,
    and red exactly when it is below 60, whatever the engine does with
    strings. *)
Theorem getScoreColor_bands :
  forall (string_ge : string -> Z -> bool) (score : Z),
    (getScoreColor string_ge (JNum score) = "bg-green-500" <-> 80 <= score) /\
    (getScoreColor string_ge (JNum score) = "bg-yellow-500" <-> 60 <= score < 80) /\
    (getScoreColor string_ge (JNum score) = "bg-red-500" <-> score < 60).
Proof.
  intros string_ge score. unfold getScoreColor, ge.
  destruct (Z.leb_spec 80 score) as [Hhigh | Hhigh];
    destruct (Z.leb_spec 60 score) as [Hmid | Hmid];
    repeat split; intros; try lia; try discriminate; reflexivity.
Qed.

(** C2: the badge of an issue is red for "High", amber for "Medium", green
    for "Low" and the neutral grey for every other priority string. *)
Theorem getPriorityColor_cases :
  getPriorityColor (JStr "High") = "bg-red-100 text-red-800" /\
  getPriorityColor (JStr "Medium") = "bg-yellow-100 text-yellow-800" /\
  getPriorityColor (JStr "Low") = "bg-green-100 text-green-800" /\
  (forall priority : string,
      priority <> "High" -> priority <> "Medium" -> priority <> "Low" ->
      getPriorityColor (JStr priority) = "bg-gray-100 text-gray-800").
Proof.
  repeat split.
  intros priority Hhigh Hmedium Hlow. unfold getPriorityColor.
  apply String.eqb_neq in Hhigh, Hmedium, Hlow.
  now rewrite Hhigh, Hmedium, Hlow.
Qed.

Lemma getPriorityColor_cases_witness :
  getPriorityColor (JStr "urgent") = "bg-gray-100 text-gray-800".
Proof.
  apply (proj2 (proj2 (proj2 getPriorityColor_cases)) "urgent"); discriminate.
Defined.

(** A priority that is not a string takes the [default] branch too. *)
Lemma getPriorityColor_not_a_string :
  forall priority : jsval,
    (forall s, priority <> JStr s) ->
    getPriorityColor priority = "bg-gray-100 text-gray-800".
Proof.
  intros priority Hnot. destruct priority; try reflexivity.
  now contradiction (Hnot s).
Qed.

Lemma getPriorityColor_not_a_string_witness :
  getPriorityColor (JNum 1) = "bg-gray-100 text-gray-800".
Proof.
  apply (getPriorityColor_not_a_string (JNum 1)). discriminate.
Defined.

(** ** The placeholder of [ReportDisplay] *)

Lemma get_truthy :
  forall (report : jsval) (name : string),
    truthy report = true -> exists v, get report name = Ok v.
Proof.
  intros report name Htruthy.
  destruct report; simpl in *; try discriminate; eauto.
Qed.

Lemma get_falsy :
  forall report : jsval,
    truthy report = false -> report <> JUndef -> report <> JNull ->
    forall name, get report name = Ok JUndef.
Proof.
  intros report Hfalsy Hundef Hnull name.
  destruct report; simpl in *; try discriminate; try reflexivity; congruence.
Qed.

(** C9: [ReportDisplay] returns the placeholder, the [div] that reads
    "No SEO report data to display.", exactly when the report is absent
    ([null] or [undefined]) or its [overall_seo_score] is falsy; in
    particular a report whose score is the number 0 gets the placeholder. *)
Theorem ReportDisplay_placeholder :
  forall (string_ge : string -> Z -> bool) (report : jsval) (isLoading : bool),
    (ReportDisplay string_ge report isLoading
       = Ok (Elem "div" "text-center text-gray-500" [Text "No SEO report data to display."]) <->
     (report = JUndef \/ report = JNull \/
      exists score, get report "overall_seo_score" = Ok score /\ truthy score = false)) /\
    (get report "overall_seo_score" = Ok (JNum 0) ->
     ReportDisplay string_ge report isLoading
       = Ok (Elem "div" "text-center text-gray-500" [Text "No SEO report data to display."])).
Proof.
  intros string_ge report isLoading.
  change (Elem "div" "text-center text-gray-500" [Text "No SEO report data to display."])
    with placeholder.
  assert (Hback : forall score,
             get report "overall_seo_score" = Ok score -> truthy score = false ->
             ReportDisplay string_ge report isLoading = Ok placeholder).
  { intros score Hget Hfalsy. unfold ReportDisplay.
    destruct (truthy report); [ | reflexivity ].
    simpl negb. cbv iota. rewrite Hget. simpl. now rewrite Hfalsy. }
  split.
  - split.
    + intros Hshown. unfold ReportDisplay in Hshown.
      destruct (truthy report) eqn:Htruthy; simpl negb in Hshown; cbv iota in Hshown.
      * destruct (get_truthy report "overall_seo_score" Htruthy) as [score Hget].
        rewrite Hget in Hshown. simpl in Hshown.
        destruct (truthy score) eqn:Hscore; simpl in Hshown.
        -- destruct (report_sections string_ge report); simpl in Hshown;
             discriminate Hshown.
        -- right; right. now exists score.
      * destruct report; simpl in Htruthy; try discriminate; auto;
          right; right; exists JUndef; split; reflexivity.
    + intros [Hundef | [Hnull | [score [Hget Hfalsy]]]].
      * now subst report.
      * now subst report.
      * now apply Hback with score.
  - intros Hzero. now apply Hback with (JNum 0).
Qed.

Lemma ReportDisplay_placeholder_witness :
  ReportDisplay no_numeric_strings
    (JObj [("overall_seo_score", JNum 0); ("issues_found", JArr [])]) false
  = Ok (Elem "div" "text-center text-gray-500" [Text "No SEO report data to display."]).
Proof.
  apply (proj2 (ReportDisplay_placeholder no_numeric_strings
                  (JObj [("overall_seo_score", JNum 0); ("issues_found", JArr [])])
                  false)).
  reflexivity.
Defined.

(** ** The URL form *)

Lemma prefix_split :
  forall p s : string, prefix p s = true -> exists rest, s = p ++ rest.
Proof.
  induction p as [ | c p IH]; intros s Hprefix.
  - now exists s.
  - destruct s as [ | c' s]; simpl in Hprefix; [ discriminate | ].
    destruct (ascii_dec c c') as [-> | ]; [ | discriminate ].
    destruct (IH s Hprefix) as [rest ->]. now exists rest.
Qed.

Lemma startsWith_http_absolute :
  forall url : string,
    startsWith url "http://" = true \/ startsWith url "https://" = true ->
    absolute_http url = true.
Proof.
  unfold startsWith. intros url [Hprefix | Hprefix];
    destruct (prefix_split _ _ Hprefix) as [rest ->];
    unfold absolute_http; simpl; now destruct rest.
Qed.

(** A URL that does begin with "http://" or "https://" is handed to
    [onAnalyze], and the form's error is cleared. *)
Lemma handleSubmit_accepts :
  forall st : form,
    startsWith (form_url st) "http://" = true \/ startsWith (form_url st) "https://" = true ->
    handleSubmit st
    = ({| form_url := form_url st; form_error := None |},
       [PreventDefault; SetFormError None; OnAnalyze (form_url st)]).
Proof.
  intros st Hstarts. unfold handleSubmit.
  destruct Hstarts as [-> | ->]; [ reflexivity | ].
  now rewrite andb_false_r.
Qed.

(** C5: a submission calls [onAnalyze] only with the submitted URL and only
    when it is an absolute http or https URL; a URL that begins with neither
    "http://" nor "https://" sets the form's error message and calls
    nothing. *)
Theorem handleSubmit_guard :
  forall st : form,
    (forall url, In (OnAnalyze url) (snd (handleSubmit st)) ->
                 url = form_url st /\ absolute_http url = true) /\
    (startsWith (form_url st) "http://" = false ->
     startsWith (form_url st) "https://" = false ->
     form_error (fst (handleSubmit st))
       = Some "Please enter a valid URL starting with http:// or https://" /\
     forall url, ~ In (OnAnalyze url) (snd (handleSubmit st))).
Proof.
  intros st.
  destruct (startsWith (form_url st) "http://") eqn:Hhttp;
    [ | destruct (startsWith (form_url st) "https://") eqn:Hhttps ].
  - rewrite handleSubmit_accepts by auto. simpl. split.
    + intros url [Hin | [Hin | [Hin | []]]]; try discriminate Hin.
      injection Hin as <-. split; [ reflexivity | ].
      apply startsWith_http_absolute; auto.
    + intros Hno. discriminate Hno.
  - rewrite handleSubmit_accepts by auto. simpl. split.
    + intros url [Hin | [Hin | [Hin | []]]]; try discriminate Hin.
      injection Hin as <-. split; [ reflexivity | ].
      apply startsWith_http_absolute; auto.
    + intros _ Hno. discriminate Hno.
  - unfold handleSubmit. rewrite Hhttp, Hhttps. simpl. split.
    + intros url [Hin | [Hin | [Hin | []]]]; discriminate Hin.
    + intros _ _. split; [ reflexivity | ].
      intros url [Hin | [Hin | [Hin | []]]]; discriminate Hin.
Qed.

Lemma handleSubmit_guard_witness :
  form_error (fst (handleSubmit {| form_url := "ftp://example.com"; form_error := None |}))
    = Some "Please enter a valid URL starting with http:// or https://" /\
  forall url,
    ~ In (OnAnalyze url)
        (snd (handleSubmit {| form_url := "ftp://example.com"; form_error := None |})).
Proof.
  apply (proj2 (handleSubmit_guard {| form_url := "ftp://example.com"; form_error := None |}));
    reflexivity.
Defined.

(** ** Downloading *)

(** C10: with no report stored, [handleDownload] sets the message
    "No report data available to download." and does nothing else: its log
    holds that one setter, so no request is sent and [isLoading] is never
    set. *)
Theorem handleDownload_without_report :
  forall (world_env : env) (st : state),
    truthy (reportData st) = false ->
    fst (run (handleDownload world_env) st) = inr tt /\
    log (snd (run (handleDownload world_env) st))
      = [SetError (Some "No report data available to download.")] /\
    page (snd (run (handleDownload world_env) st))
      = {| reportData := reportData st;
           isLoading := isLoading st;
           error := Some "No report data available to download." |}.
Proof.
  intros world_env st Hnone.
  unfold run, handleDownload, bindM, read. cbv beta iota. cbn [page].
  rewrite Hnone. simpl. repeat split.
Qed.

Lemma handleDownload_without_report_witness :
  log (snd (run (handleDownload (sample_env (inl (sample_exn "offline")))) initial))
    = [SetError (Some "No report data available to download.")].
Proof.
  apply (handleDownload_without_report (sample_env (inl (sample_exn "offline"))) initial).
  reflexivity.
Defined.

Lemma forallb_range :
  forall (P : Z -> bool) (bound : Z),
    forallb P (map Z.of_nat (seq 0 (Z.to_nat bound))) = true ->
    forall z, 0 <= z < bound -> P z = true.
Proof.
  intros P bound Hall z Hz. rewrite forallb_forall in Hall. apply Hall.
  apply in_map_iff. exists (Z.to_nat z). split; [ lia | ].
  apply in_seq. lia.
Qed.

Lemma pad_year :
  forall y : Z,
    0 <= y <= 9999 ->
    pad 4 y = String (digit (y / 1000)) (String (digit (y / 100))
                (String (digit (y / 10)) (String (digit y) EmptyString))).
Proof.
  intros y Hy. apply String.eqb_eq.
  apply (forallb_range
           (fun y => (pad 4 y =? String (digit (y / 1000)) (String (digit (y / 100))
                        (String (digit (y / 10)) (String (digit y) EmptyString))))%string)
           10000); [ vm_compute; reflexivity | lia ].
Qed.

Lemma pad_two :
  forall n : Z,
    0 <= n <= 99 ->
    pad 2 n = String (digit (n / 10)) (String (digit n) EmptyString).
Proof.
  intros n Hn. apply String.eqb_eq.
  apply (forallb_range
           (fun n => (pad 2 n =? String (digit (n / 10)) (String (digit n) EmptyString))%string)
           100); [ vm_compute; reflexivity | lia ].
Qed.

(** The first ten characters of [toISOString] are the ISO date. *)
Lemma slice_toISOString :
  forall d : date,
    0 <= year d <= 9999 -> 0 <= month d <= 99 -> 0 <= day d <= 99 ->
    slice0 10 (toISOString d) = iso_date (year d) (month d) (day d).
Proof.
  intros d Hyear Hmonth Hday. unfold toISOString.
  replace ((0 <=? year d) && (year d <=? 9999)) with true
    by (symmetry; apply andb_true_iff; split; apply Z.leb_le; lia).
  rewrite (pad_year _ Hyear), (pad_two _ Hmonth), (pad_two _ Hday).
  reflexivity.
Qed.

Lemma digit_is_no_sign :
  forall n : Z, digit n <> "+"%char /\ digit n <> "-"%char.
Proof.
  intros n. unfold digit.
  assert (Hrange : 0 <= n mod 10 < 10) by (apply Z.mod_pos_bound; lia).
  assert (Hcases : n mod 10 = 0 \/ n mod 10 = 1 \/ n mod 10 = 2 \/ n mod 10 = 3
                   \/ n mod 10 = 4 \/ n mod 10 = 5 \/ n mod 10 = 6 \/ n mod 10 = 7
                   \/ n mod 10 = 8 \/ n mod 10 = 9) by lia.
  repeat (destruct Hcases as [-> | Hcases]); try rewrite Hcases;
    split; discriminate.
Qed.

(** C6: a download that succeeds (the request resolves with a success
    status and its body is read as a blob), at a moment whose UTC year has
    four digits, clicks one link, whose file name is "SEO_Report_", the
    current UTC date as YYYY-MM-DD and ".pdf". *)
Theorem handleDownload_filename :
  forall (world_env : env) (st : state) (r : response) (blob : string),
    truthy (reportData st) = true ->
    network world_env (API_BASE_URL ++ "/download") (JObj [("seo_report", reportData st)])
      = inr r ->
    ok r = true ->
    blob_body r = inr blob ->
    0 <= year (now world_env) <= 9999 ->
    1 <= month (now world_env) <= 12 ->
    1 <= day (now world_env) <= 31 ->
    fst (run (handleDownload world_env) st) = inr tt /\
    error (page (snd (run (handleDownload world_env) st))) = None /\
    log (snd (run (handleDownload world_env) st))
      = [ SetError None;
          SetIsLoading true;
          Fetch (API_BASE_URL ++ "/download") "POST" (JObj [("seo_report", reportData st)]);
          CreateObjectURL blob;
          AppendChild;
          Click (object_url world_env blob)
            ("SEO_Report_"
               ++ iso_date (year (now world_env)) (month (now world_env)) (day (now world_env))
               ++ ".pdf");
          Remove;
          RevokeObjectURL (object_url world_env blob);
          SetIsLoading false ].
Proof.
  intros world_env st r blob Hreport Hanswer Hok Hblob Hyear Hmonth Hday.
  rewrite <- (slice_toISOString (now world_env)) by lia.
  unfold run, handleDownload, bindM, read. cbv beta iota. cbn [page].
  rewrite Hreport. simpl negb. cbv iota.
  unfold try_catch_finally, setError, setIsLoading, fetch, response_blob, consume_body,
    when, emit, update, bindM.
  simpl in Hanswer. simpl. rewrite Hanswer. simpl. rewrite Hok. simpl.
  rewrite Hblob. simpl. repeat split.
Qed.

Lemma handleDownload_filename_witness :
  log (snd (run (handleDownload (sample_env (inr pdf_response)))
              {| reportData := sample_report []; isLoading := false; error := None |}))
    = [ SetError None;
        SetIsLoading true;
        Fetch "http://localhost:8000/download" "POST" (JObj [("seo_report", sample_report [])]);
        CreateObjectURL "%PDF-1.4";
        AppendChild;
        Click "blob:http://localhost:5173/1" "SEO_Report_2025-03-07.pdf";
        Remove;
        RevokeObjectURL "blob:http://localhost:5173/1";
        SetIsLoading false ].
Proof.
  apply (handleDownload_filename (sample_env (inr pdf_response))
           {| reportData := sample_report []; isLoading := false; error := None |}
           pdf_response "%PDF-1.4");
    simpl; try reflexivity; lia.
Defined.

(** Against C6 as worded: in the year 12025 a download succeeds and the
    file it saves is named "SEO_Report_+012025-03.pdf", which is
    "SEO_Report_", an ISO date and ".pdf" for no date at all. *)
Lemma handleDownload_filename_year_12025 :
  fst (run (handleDownload (sample_env_at year_12025 (inr pdf_response)))
         {| reportData := sample_report []; isLoading := false; error := None |})
    = inr tt /\
  filter is_click
    (log (snd (run (handleDownload (sample_env_at year_12025 (inr pdf_response)))
                 {| reportData := sample_report []; isLoading := false; error := None |})))
    = [ Click "blob:http://localhost:5173/1" "SEO_Report_+012025-03.pdf" ] /\
  (forall y m d : Z,
      "SEO_Report_+012025-03.pdf" <> ("SEO_Report_" ++ iso_date y m d ++ ".pdf")%string).
Proof.
  split; [ reflexivity | ]. split; [ reflexivity | ].
  intros y m d Hsame. unfold iso_date in Hsame. simpl in Hsame.
  injection Hsame as Hfirst _.
  now destruct (digit_is_no_sign (y / 1000)) as [Hplus _].
Qed.

(** Outside the years 0 to 9999 [toISOString] prints a sign and six
    digits, and the first ten characters are no longer a date. *)
Example slice_toISOString_year_12025 :
  slice0 10 (toISOString {| year := 12025; month := 3; day := 7; hours := 9;
                            minutes := 5; seconds := 0; milliseconds := 42 |})
  = "+012025-03".
Proof. reflexivity. Qed.

(** ** Analysing *)

Lemma or_else_nonempty :
  forall a b : string, b <> "" -> or_else a b <> "".
Proof.
  intros a b Hb. unfold or_else.
  destruct (a =? "")%string eqn:Ha; [ exact Hb | ].
  now apply String.eqb_neq.
Qed.

(** What [Dashboard] shows once an analysis has ended with no report and
    the message [msg]. *)
Lemma Dashboard_after_failure :
  forall (string_ge : string -> Z -> bool) (msg : string) (input : form),
    msg <> "" ->
    Dashboard string_ge {| reportData := JNull; isLoading := false; error := Some msg |} input
    = Ok (page_frame [page_header; error_banner msg; InputForm input false]).
Proof.
  intros string_ge msg input Hmsg. unfold Dashboard, and_then. simpl.
  apply String.eqb_neq in Hmsg. now rewrite Hmsg.
Qed.

(** X22: when the analyze request throws or answers with a non-success
    status, [handleAnalyze] ends normally with no report stored (the only
    value ever given to [setReportData] is [null]) and loading switched
    off.  The message it leaves is that of the error that reached the
    [catch] block (the rejection of the request, the failure to parse the
    body, or the engine's error for a body read twice) or, when that is
    empty, a fixed sentence; [Dashboard] then shows "Error:" and that
    message in a banner above the form, and not the report. *)
Theorem handleAnalyze_failure :
  forall (string_ge : string -> Z -> bool) (world_env : env) (url : string)
         (st : state) (input : form),
    failed (network world_env (API_BASE_URL ++ "/analyze") (JObj [("url", JStr url)])) = true ->
    fst (run (handleAnalyze world_env url) st) = inr tt /\
    reportData (page (snd (run (handleAnalyze world_env url) st))) = JNull /\
    isLoading (page (snd (run (handleAnalyze world_env url) st))) = false /\
    (forall v, In (SetReportData v) (log (snd (run (handleAnalyze world_env url) st))) ->
               v = JNull) /\
    exists err : exn,
      (network world_env (API_BASE_URL ++ "/analyze") (JObj [("url", JStr url)]) = inl err \/
       exists r,
         network world_env (API_BASE_URL ++ "/analyze") (JObj [("url", JStr url)]) = inr r /\
         (json_body r = inl err \/
          (exists data, json_body r = inr data) /\ err = body_used_error world_env)) /\
      error (page (snd (run (handleAnalyze world_env url) st)))
        = Some (or_else (message err) "An unexpected error occurred during analysis.") /\
      or_else (message err) "An unexpected error occurred during analysis." <> "" /\
      Dashboard string_ge (page (snd (run (handleAnalyze world_env url) st))) input
        = Ok (page_frame
                [ page_header;
                  Elem "div"
                    "max-w-xl mx-auto p-4 mb-6 text-sm text-red-700 bg-red-100 rounded-lg shadow-md"
                    [ Elem "strong" "" [Text "Error:"];
                      Text " ";
                      Text (or_else (message err)
                              "An unexpected error occurred during analysis.") ];
                  InputForm input false ]).
Proof.
  intros string_ge world_env url st input Hfailed.
  assert (Hstate :
            exists err : exn,
              (network world_env (API_BASE_URL ++ "/analyze") (JObj [("url", JStr url)])
                 = inl err \/
               exists r,
                 network world_env (API_BASE_URL ++ "/analyze") (JObj [("url", JStr url)])
                   = inr r /\
                 (json_body r = inl err \/
                  (exists data, json_body r = inr data) /\ err = body_used_error world_env)) /\
              fst (run (handleAnalyze world_env url) st) = inr tt /\
              page (snd (run (handleAnalyze world_env url) st))
                = {| reportData := JNull;
                     isLoading := false;
                     error := Some (or_else (message err)
                                      "An unexpected error occurred during analysis.") |} /\
              forall v, In (SetReportData v) (log (snd (run (handleAnalyze world_env url) st))) ->
                        v = JNull).
  { unfold run, handleAnalyze, try_catch_finally, setIsLoading, setReportData, setError,
      fetch, response_json, response_text, consume_body, when, emit, update, bindM.
    simpl in Hfailed. simpl.
    destruct (network world_env "http://localhost:8000/analyze" (JObj [("url", JStr url)]))
      as [err | r]; simpl in *.
    - exists err. repeat split; auto.
      intros v Hin.
      repeat (destruct Hin as [Hin | Hin]; [ try discriminate Hin; now injection Hin | ]).
      contradiction.
    - apply negb_true_iff in Hfailed. rewrite Hfailed.
      destruct (json_body r) as [err | data] eqn:Hjson; simpl.
      + exists err. repeat split; eauto.
        intros v Hin.
        repeat (destruct Hin as [Hin | Hin]; [ try discriminate Hin; now injection Hin | ]).
        contradiction.
      + exists (body_used_error world_env). repeat split; eauto 8.
        intros v Hin.
        repeat (destruct Hin as [Hin | Hin]; [ try discriminate Hin; now injection Hin | ]).
        contradiction. }
  destruct Hstate as [err [Hcause [Hdone [Hpage Hstored]]]].
  assert (Hmsg : or_else (message err) "An unexpected error occurred during analysis." <> "")
    by (apply or_else_nonempty; discriminate).
  split; [ exact Hdone | ]. rewrite Hpage. simpl.
  split; [ reflexivity | ]. split; [ reflexivity | ]. split; [ exact Hstored | ].
  exists err. split; [ exact Hcause | ]. split; [ reflexivity | ]. split; [ exact Hmsg | ].
  now apply Dashboard_after_failure.
Qed.

Lemma handleAnalyze_failure_witness :
  reportData
    (page (snd (run (handleAnalyze (sample_env (inr crawl_failed)) "https://example.com")
                  initial)))
  = JNull.
Proof.
  refine (proj1 (proj2 (handleAnalyze_failure no_numeric_strings
           (sample_env (inr crawl_failed))
           "https://example.com" initial
           {| form_url := "https://example.com"; form_error := None |} _))).
  reflexivity.
Defined.

(** C7, at an answer the back end does give: the analysis of a page fails
    and the back end answers with a non-success status and the detail
    "Crawl failed".  No report is stored and the page shows an error banner
    above the form, but the banner reads the engine's error for a body
    read twice, and the detail of the back end is nowhere on the page. *)
Lemma handleAnalyze_drops_backend_detail :
  ok crawl_failed = false /\
  text_body crawl_failed = inr "Crawl failed" /\
  page (snd (run (handleAnalyze (sample_env (inr crawl_failed)) "https://example.com")
               initial))
    = {| reportData := JNull;
         isLoading := false;
         error := Some "body stream already read" |} /\
  exists tree,
    Dashboard no_numeric_strings
      (page (snd (run (handleAnalyze (sample_env (inr crawl_failed)) "https://example.com")
                    initial)))
      {| form_url := "https://example.com"; form_error := None |}
      = Ok tree /\
    textContent tree
      = "AI-Powered SEO AuditorAutonomous crawling, Gemini analysis, and professional PDF reporting.Error: body stream already readAutonomous SEO AuditEnter a website URL to initiate the Gemini-powered analysis.Website URL (e.g., https://example.com)Analyze Website" /\
    mentions "Crawl failed" (textContent tree) = false.
Proof.
  split; [ reflexivity | ]. split; [ reflexivity | ]. split; [ reflexivity | ].
  eexists. split; [ reflexivity | ]. split; vm_compute; reflexivity.
Qed.

(** X1: on a non-success answer whose body is JSON, the error that reaches
    the [catch] block is the engine's: [response.json()] has read the body,
    so [response.text()] rejects before the back end's text is looked at. *)
Lemma handleAnalyze_non_success_message :
  forall (world_env : env) (url : string) (st : state) (r : response) (data : jsval),
    network world_env (API_BASE_URL ++ "/analyze") (JObj [("url", JStr url)]) = inr r ->
    ok r = false ->
    json_body r = inr data ->
    error (page (snd (run (handleAnalyze world_env url) st)))
    = Some (or_else (message (body_used_error world_env))
              "An unexpected error occurred during analysis.").
Proof.
  intros world_env url st r data Hanswer Hok Hjson.
  unfold run, handleAnalyze, try_catch_finally, setIsLoading, setReportData, setError,
    fetch, response_json, response_text, consume_body, when, emit, update, bindM.
  simpl in Hanswer. simpl. rewrite Hanswer. simpl. rewrite Hjson, Hok. reflexivity.
Qed.

Lemma handleAnalyze_non_success_message_witness :
  error (page (snd (run (handleAnalyze
                           (sample_env (inr {| ok := false;
                                               json_body := inr (JObj [("detail", JStr "Crawl failed")]);
                                               text_body := inr "Crawl failed";
                                               blob_body := inr "" |}))
                           "https://example.com")
                      initial)))
  = Some "body stream already read".
Proof.
  apply (handleAnalyze_non_success_message
           (sample_env (inr {| ok := false;
                               json_body := inr (JObj [("detail", JStr "Crawl failed")]);
                               text_body := inr "Crawl failed";
                               blob_body := inr "" |}))
           "https://example.com" initial
           {| ok := false;
              json_body := inr (JObj [("detail", JStr "Crawl failed")]);
              text_body := inr "Crawl failed";
              blob_body := inr "" |}
           (JObj [("detail", JStr "Crawl failed")]));
    reflexivity.
Defined.

(** X2: a success answer whose body parses to a value other than [null]
    stores that value's [seo_report] (whatever it is, [undefined] included),
    clears the error and switches loading off. *)
Lemma handleAnalyze_success :
  forall (world_env : env) (url : string) (st : state) (r : response)
         (data seo_report : jsval),
    network world_env (API_BASE_URL ++ "/analyze") (JObj [("url", JStr url)]) = inr r ->
    ok r = true ->
    json_body r = inr data ->
    get data "seo_report" = Ok seo_report ->
    fst (run (handleAnalyze world_env url) st) = inr tt /\
    page (snd (run (handleAnalyze world_env url) st))
      = {| reportData := seo_report; isLoading := false; error := None |}.
Proof.
  intros world_env url st r data seo_report Hanswer Hok Hjson Hget.
  unfold run, handleAnalyze, try_catch_finally, setIsLoading, setReportData, setError,
    fetch, response_json, response_text, consume_body, when, prop, emit, update, bindM.
  simpl in Hanswer. simpl. rewrite Hanswer. simpl. rewrite Hjson, Hok, Hget.
  split; reflexivity.
Qed.

Lemma handleAnalyze_success_witness :
  page (snd (run (handleAnalyze
                    (sample_env (inr {| ok := true;
                                        json_body := inr (JObj [("seo_report", sample_report [])]);
                                        text_body := inr "";
                                        blob_body := inr "" |}))
                    "https://example.com")
               initial))
  = {| reportData := sample_report []; isLoading := false; error := None |}.
Proof.
  apply (handleAnalyze_success
           (sample_env (inr {| ok := true;
                               json_body := inr (JObj [("seo_report", sample_report [])]);
                               text_body := inr "";
                               blob_body := inr "" |}))
           "https://example.com" initial
           {| ok := true;
              json_body := inr (JObj [("seo_report", sample_report [])]);
              text_body := inr "";
              blob_body := inr "" |}
           (JObj [("seo_report", sample_report [])]));
    reflexivity.
Defined.

(** ** Rendering accepted reports *)

Lemma bind_Ok :
  forall (A B : Type) (a : A) (k : A -> result B), bind (Ok a) k = k a.
Proof. reflexivity. Qed.




Section Accepted.

Variable string_ge : string -> Z -> bool.






End Accepted.




(** ** Two renders of one report *)

Lemma append_assoc :
  forall a b c : string, ((a ++ b) ++ c)%string = (a ++ b ++ c)%string.
Proof.
  induction a as [ | x a IH]; intros b c; simpl; [ reflexivity | now rewrite IH ].
Qed.

Lemma concat_snoc :
  forall (parts : list string) (last : string),
    String.concat "" (parts ++ [last]) = (String.concat "" parts ++ last)%string.
Proof.
  induction parts as [ | part parts IH]; intros last.
  - reflexivity.
  - destruct parts as [ | next parts].
    + reflexivity.
    + change (String.concat "" ((part :: next :: parts) ++ [last]))
        with (part ++ "" ++ String.concat "" ((next :: parts) ++ [last]))%string.
      rewrite IH.
      change (String.concat "" (part :: next :: parts))
        with (part ++ "" ++ String.concat "" (next :: parts))%string.
      simpl. now rewrite append_assoc.
Qed.

Lemma textContent_download_button :
  forall isLoading : bool, textContent (download_button isLoading) = download_label isLoading.
Proof. now intros []. Qed.

(** The engine's way of comparing strings with numbers reaches the class
    of the score circle and no text: the sections of a report throw or
    render together on any two engines, with the same texts. *)
Lemma report_sections_text :
  forall (first second : string -> Z -> bool) (report : jsval),
    match report_sections first report, report_sections second report with
    | inl _, inl _ => True
    | inr sections, inr sections' => map textContent sections = map textContent sections'
    | _, _ => False
    end.
Proof.
  intros first second report. unfold report_sections, header_block.
  repeat match goal with
         | |- context [bind ?m _] =>
             destruct m as [[] | ?]; cbn [bind]; [ exact I | ]
         end.
  reflexivity.
Qed.

(** C4: rendering is deterministic.  The visible outcome of a render, its
    text or its throw, is fixed by the report and the [isLoading] prop: two
    renders of one report under the same [isLoading] agree, on any two
    engines.  A report throws at every render, or shows the placeholder
    "No SEO report data to display." at every render, or shows a body of
    its own followed by the label of the download button, "Generating
    PDF..." while loading and "Download Professional SEO Report (PDF)"
    otherwise. *)
Theorem ReportDisplay_text_deterministic :
  forall (first second : string -> Z -> bool) (report : jsval),
    (forall isLoading,
        rendered_text (ReportDisplay first report isLoading)
        = rendered_text (ReportDisplay second report isLoading)) /\
    ((forall isLoading, ReportDisplay first report isLoading = Throw Thrown) \/
     (forall isLoading,
         ReportDisplay first report isLoading
         = Ok (Elem "div" "text-center text-gray-500"
                 [Text "No SEO report data to display."])) \/
     (exists body : string,
         forall isLoading,
         exists tree,
           ReportDisplay first report isLoading = Ok tree /\
           textContent tree
           = (body ++ (if isLoading then "Generating PDF..."
                       else "Download Professional SEO Report (PDF)"))%string)).
Proof.
  intros first second report. split.
  - intros isLoading. unfold ReportDisplay.
    destruct (truthy report); simpl negb; cbv iota; [ | reflexivity ].
    destruct (get report "overall_seo_score") as [[] | score]; [ reflexivity | ].
    cbn [bind].
    destruct (truthy score); simpl negb; cbv iota; [ | reflexivity ].
    pose proof (report_sections_text first second report) as Htext.
    destruct (report_sections first report) as [[] | sections];
      destruct (report_sections second report) as [[] | sections'];
      try contradiction; [ reflexivity | ].
    unfold rendered_text. cbn [bind Ok textContent].
    now rewrite !map_app, Htext.
  - unfold ReportDisplay.
    destruct (truthy report); simpl negb; cbv iota; [ | now right; left ].
    destruct (get report "overall_seo_score") as [[] | score]; [ now left | ].
    cbn [bind].
    destruct (truthy score); simpl negb; cbv iota; [ | now right; left ].
    destruct (report_sections first report) as [[] | sections]; [ now left | ].
    cbn [bind]. right; right. exists (String.concat "" (map textContent sections)).
    intros isLoading. eexists. split; [ reflexivity | ].
    cbn [textContent]. rewrite map_app. cbn [map].
    rewrite concat_snoc, textContent_download_button. now destruct isLoading.
Qed.

(** The label is part of the text: the same report, rendered while idle
    and while a download is loading, reads differently. *)
Lemma ReportDisplay_text_follows_isLoading :
  exists idle loading : vnode,
    ReportDisplay no_numeric_strings (sample_report []) false = Ok idle /\
    ReportDisplay no_numeric_strings (sample_report []) true = Ok loading /\
    textContent idle <> textContent loading.
Proof.
  do 2 eexists. split; [ reflexivity | ]. split; [ reflexivity | ].
  vm_compute. discriminate.
Qed.

(** ** The score field of the Validator *)

(** C8: a numeric score outside [0,100] is clamped into the range and
    accepted (0 below the range, 100 above it); a score that is not numeric
    fails with the field error naming [overall_seo_score]. *)
Theorem validate_overall_seo_score_clamps :
  forall v : jsval,
    (forall n, v = JNum n -> n < 0 \/ 100 < n ->
               exists score,
                 Validator.validate_overall_seo_score v = inr score /\
                 0 <= score <= 100 /\
                 score = (if n <? 0 then 0 else 100)) /\
    (Validator.numeric v = false ->
     Validator.validate_overall_seo_score v
     = inl (Validator.FieldError "overall_seo_score")).
Proof.
  intros v. split.
  - intros n -> Hout. exists (Validator.clamp n). split; [ reflexivity | ].
    unfold Validator.clamp. destruct (Z.ltb_spec n 0); lia.
  - intros Hnot. destruct v; try reflexivity. discriminate Hnot.
Qed.

Lemma validate_overall_seo_score_clamps_witness :
  Validator.validate_overall_seo_score (JStr "N/A")
  = inl (Validator.FieldError "overall_seo_score").
Proof.
  refine (proj2 (validate_overall_seo_score_clamps (JStr "N/A")) _).
  reflexivity.
Defined.

(** A score inside the range is accepted as it is. *)
Lemma validate_overall_seo_score_in_range :
  forall n : Z,
    0 <= n <= 100 -> Validator.validate_overall_seo_score (JNum n) = inr n.
Proof.
  intros n Hn. simpl. unfold Validator.clamp. f_equal. lia.
Qed.

(** * Further properties of the page *)

(** ** What the two requests leave behind *)

Ltac run_handler :=
  unfold run, handleAnalyze, handleDownload, try_catch_finally, setIsLoading,
    setReportData, setError, fetch, response_json, response_text, response_blob,
    consume_body, when, prop, read, emit, update, bindM.

(** [handleAnalyze] as a table: it always ends normally, and the answer of
    the network fixes the state and the log it leaves. *)
Lemma handleAnalyze_run :
  forall (world_env : env) (url : string) (st : state),
    fst (run (handleAnalyze world_env url) st) = inr tt /\
    page (snd (run (handleAnalyze world_env url) st))
      = match analysis_outcome world_env url with
        | inl err =>
            {| reportData := JNull;
               isLoading := false;
               error := Some (or_else (message err)
                                "An unexpected error occurred during analysis.") |}
        | inr seo_report =>
            {| reportData := seo_report; isLoading := false; error := None |}
        end /\
    log (snd (run (handleAnalyze world_env url) st))
      = ([ SetIsLoading true;
           SetReportData JNull;
           SetError None;
           Fetch (API_BASE_URL ++ "/analyze") "POST" (JObj [("url", JStr url)]) ]
         ++ match analysis_outcome world_env url with
            | inl err =>
                [ ConsoleError "Analysis Error:" (LogError err);
                  SetError (Some (or_else (message err)
                                    "An unexpected error occurred during analysis.")) ]
            | inr seo_report => [ SetReportData seo_report ]
            end
         ++ [ SetIsLoading false ])%list.
Proof.
  intros world_env url st. unfold analysis_outcome. run_handler. simpl.
  destruct (network world_env "http://localhost:8000/analyze" (JObj [("url", JStr url)]))
    as [err | r]; simpl; [ repeat split | ].
  destruct (json_body r) as [err | data]; simpl; [ repeat split | ].
  destruct (ok r); simpl; [ | repeat split ].
  destruct (get data "seo_report") as [[] | seo_report]; simpl; repeat split.
Qed.

(** [handleDownload] as a table, for a stored report. *)
Lemma handleDownload_run :
  forall (world_env : env) (st : state),
    truthy (reportData st) = true ->
    fst (run (handleDownload world_env) st) = inr tt /\
    page (snd (run (handleDownload world_env) st))
      = {| reportData := reportData st;
           isLoading := false;
           error := match download_outcome world_env (reportData st) with
                    | inl err =>
                        Some (or_else (message err) "An error occurred during PDF download.")
                    | inr _ => None
                    end |} /\
    log (snd (run (handleDownload world_env) st))
      = ([ SetError None;
           SetIsLoading true;
           Fetch (API_BASE_URL ++ "/download") "POST" (JObj [("seo_report", reportData st)]) ]
        ++ match download_outcome world_env (reportData st) with
           | inl err =>
               [ ConsoleError "Download Error:" (LogError err);
                 SetError (Some (or_else (message err)
                                   "An error occurred during PDF download.")) ]
           | inr blob =>
               [ CreateObjectURL blob;
                 AppendChild;
                 Click (object_url world_env blob)
                   ("SEO_Report_" ++ slice0 10 (toISOString (now world_env)) ++ ".pdf");
                 Remove;
                 RevokeObjectURL (object_url world_env blob) ]
           end
        ++ [ SetIsLoading false ])%list.
Proof.
  intros world_env st Hreport. unfold download_outcome. run_handler.
  cbv beta iota. cbn [page]. rewrite Hreport. simpl.
  destruct (network world_env "http://localhost:8000/download"
              (JObj [("seo_report", reportData st)])) as [err | r];
    simpl; [ repeat split | ].
  destruct (ok r); simpl.
  - destruct (blob_body r) as [err | blob]; simpl; repeat split.
  - destruct (text_body r) as [err | errorText]; simpl; repeat split.
Qed.

Lemma handleDownload_idle :
  forall (world_env : env) (st : state),
    truthy (reportData st) = false ->
    run (handleDownload world_env) st
    = (inr tt,
       {| page := {| reportData := reportData st;
                     isLoading := isLoading st;
                     error := Some "No report data available to download." |};
          log := [SetError (Some "No report data available to download.")];
          bodyUsed := false |}).
Proof.
  intros world_env st Hnone. run_handler. cbv beta iota. cbn [page].
  now rewrite Hnone.
Qed.

(** X3: whatever the network answers, [handleAnalyze] ends normally with
    loading switched off; it sends one request, a POST of the URL to
    [/analyze], after switching loading on, and its last effect switches
    loading off. *)
Theorem handleAnalyze_settles :
  forall (world_env : env) (url : string) (st : state),
    fst (run (handleAnalyze world_env url) st) = inr tt /\
    isLoading (page (snd (run (handleAnalyze world_env url) st))) = false /\
    filter is_fetch (log (snd (run (handleAnalyze world_env url) st)))
      = [ Fetch "http://localhost:8000/analyze" "POST" (JObj [("url", JStr url)]) ] /\
    hd_error (log (snd (run (handleAnalyze world_env url) st))) = Some (SetIsLoading true) /\
    last (log (snd (run (handleAnalyze world_env url) st))) (SetIsLoading true)
      = SetIsLoading false.
Proof.
  intros world_env url st.
  destruct (handleAnalyze_run world_env url st) as [Hdone [Hpage Hlog]].
  rewrite Hpage, Hlog.
  split; [ exact Hdone | ].
  destruct (analysis_outcome world_env url); repeat split.
Qed.

(** X4: an analysis leaves no error message exactly when the request
    resolved with a success status and a JSON body other than [null]; in
    every other case it leaves the stored report [null]. *)
Theorem handleAnalyze_error_free :
  forall (world_env : env) (url : string) (st : state),
    (error (page (snd (run (handleAnalyze world_env url) st))) = None <->
     exists r data,
       network world_env (API_BASE_URL ++ "/analyze") (JObj [("url", JStr url)]) = inr r /\
       ok r = true /\ json_body r = inr data /\ data <> JNull /\ data <> JUndef) /\
    (error (page (snd (run (handleAnalyze world_env url) st))) <> None ->
     reportData (page (snd (run (handleAnalyze world_env url) st))) = JNull).
Proof.
  intros world_env url st.
  destruct (handleAnalyze_run world_env url st) as [_ [Hpage _]].
  rewrite Hpage. unfold analysis_outcome.
  destruct (network world_env (API_BASE_URL ++ "/analyze") (JObj [("url", JStr url)]))
    as [err | r]; simpl.
  { split; [ split | reflexivity ]; [ discriminate | ].
    intros [r [data [Hanswer _]]]. discriminate Hanswer. }
  destruct (json_body r) as [err | data] eqn:Hjson; simpl.
  { split; [ split | reflexivity ]; [ discriminate | ].
    intros [r' [data [Hanswer [_ [Hbody _]]]]]. injection Hanswer as <-. congruence. }
  destruct (ok r) eqn:Hok; simpl.
  - destruct data; simpl;
      (split;
       [ split;
         [ try discriminate; intros _; exists r; eexists;
           repeat split; try eassumption; discriminate
         | try reflexivity;
           intros [r' [data' [Hanswer [_ [Hbody [Hnull Hundef]]]]]];
           injection Hanswer as <-; rewrite Hjson in Hbody; injection Hbody as <-;
           congruence ]
       | intros Herror; try reflexivity; now contradiction Herror ]).
  - split; [ split | reflexivity ]; [ discriminate | ].
    intros [r' [data' [Hanswer [Hok' _]]]]. injection Hanswer as <-. congruence.
Qed.

(** X5: a success answer whose JSON object has no [seo_report] property is
    taken as a success: [undefined] is stored, no error is set, and the page
    shows the empty form again with no message. *)
Theorem handleAnalyze_missing_report :
  forall (string_ge : string -> Z -> bool) (world_env : env) (url : string)
         (st : state) (input : form) (r : response) (fields : list (string * jsval)),
    network world_env (API_BASE_URL ++ "/analyze") (JObj [("url", JStr url)]) = inr r ->
    ok r = true ->
    json_body r = inr (JObj fields) ->
    lookup "seo_report" fields = None ->
    page (snd (run (handleAnalyze world_env url) st))
      = {| reportData := JUndef; isLoading := false; error := None |} /\
    Dashboard string_ge (page (snd (run (handleAnalyze world_env url) st))) input
      = Ok (page_frame [page_header; InputForm input false]).
Proof.
  intros string_ge world_env url st input r fields Hanswer Hok Hjson Hmissing.
  destruct (handleAnalyze_run world_env url st) as [_ [Hpage _]].
  rewrite Hpage. unfold analysis_outcome. rewrite Hanswer, Hjson, Hok.
  simpl. unfold field. rewrite Hmissing. split; reflexivity.
Qed.

Lemma handleAnalyze_missing_report_witness :
  page (snd (run (handleAnalyze
                    (sample_env (inr {| ok := true;
                                        json_body := inr (JObj [("report", sample_report [])]);
                                        text_body := inr "";
                                        blob_body := inr "" |}))
                    "https://example.com")
               initial))
  = {| reportData := JUndef; isLoading := false; error := None |}.
Proof.
  refine (proj1 (handleAnalyze_missing_report no_numeric_strings
           (sample_env (inr {| ok := true;
                               json_body := inr (JObj [("report", sample_report [])]);
                               text_body := inr "";
                               blob_body := inr "" |}))
           "https://example.com" initial
           {| form_url := ""; form_error := None |}
           {| ok := true;
              json_body := inr (JObj [("report", sample_report [])]);
              text_body := inr "";
              blob_body := inr "" |}
           [("report", sample_report [])] _ _ _ _)); reflexivity.
Defined.

(** X7: [handleDownload] never changes the stored report and always ends
    normally; the link is clicked (a file is saved) exactly when a report
    is stored, the request resolves with a success status and its body is
    read as a blob, and then it is clicked once. *)
Theorem handleDownload_saves_only_on_success :
  forall (world_env : env) (st : state),
    fst (run (handleDownload world_env) st) = inr tt /\
    reportData (page (snd (run (handleDownload world_env) st))) = reportData st /\
    (existsb is_click (log (snd (run (handleDownload world_env) st))) = true <->
     truthy (reportData st) = true /\
     exists r blob,
       network world_env (API_BASE_URL ++ "/download") (JObj [("seo_report", reportData st)])
         = inr r /\ ok r = true /\ blob_body r = inr blob) /\
    (length (filter is_click (log (snd (run (handleDownload world_env) st)))) <= 1)%nat.
Proof.
  intros world_env st. destruct (truthy (reportData st)) eqn:Hreport.
  - destruct (handleDownload_run world_env st Hreport) as [Hdone [Hpage Hlog]].
    rewrite Hdone, Hpage, Hlog. unfold download_outcome.
    destruct (network world_env (API_BASE_URL ++ "/download")
                (JObj [("seo_report", reportData st)])) as [err | r]; simpl.
    + repeat split; try discriminate; try lia.
      intros [_ [r [blob [Hanswer _]]]]. discriminate Hanswer.
    + destruct (ok r) eqn:Hok; simpl.
      * destruct (blob_body r) as [err | blob] eqn:Hblob; simpl;
          repeat split; try discriminate; try lia; eauto.
        intros [_ [r' [blob [Hanswer [_ Hblob']]]]]. injection Hanswer as <-. congruence.
      * destruct (text_body r) as [err | errorText]; simpl;
          repeat split; try discriminate; try lia;
          intros [_ [r' [blob [Hanswer [Hok' _]]]]]; injection Hanswer as <-; congruence.
  - rewrite (handleDownload_idle world_env st Hreport). simpl.
    repeat split; try discriminate; lia.
Qed.

(** X8: when the download answers with a non-success status, the message
    shown comes from reading the response body as text (the body has not
    been read before): the text itself, "Failed to generate PDF." when the
    text is empty, or, when the read rejects, the message of the rejection
    (with its own fallback sentence); nothing is saved and loading is
    switched off. *)
Theorem handleDownload_non_success :
  forall (world_env : env) (st : state) (r : response),
    truthy (reportData st) = true ->
    network world_env (API_BASE_URL ++ "/download") (JObj [("seo_report", reportData st)])
      = inr r ->
    ok r = false ->
    page (snd (run (handleDownload world_env) st))
      = {| reportData := reportData st;
           isLoading := false;
           error := Some match text_body r with
                         | inr errorText => or_else errorText "Failed to generate PDF."
                         | inl err =>
                             or_else (message err) "An error occurred during PDF download."
                         end |} /\
    filter is_click (log (snd (run (handleDownload world_env) st))) = [].
Proof.
  intros world_env st r Hreport Hanswer Hok.
  destruct (handleDownload_run world_env st Hreport) as [_ [Hpage Hlog]].
  rewrite Hpage, Hlog. unfold download_outcome. rewrite Hanswer, Hok.
  destruct (text_body r) as [err | errorText]; simpl; (split; [ | reflexivity ]);
    [ reflexivity | ].
  f_equal. f_equal. unfold or_else.
  destruct (errorText =? "")%string eqn:Hempty; [ reflexivity | ].
  now rewrite Hempty.
Qed.

Lemma handleDownload_non_success_witness :
  page (snd (run (handleDownload
                    (sample_env (inr {| ok := false; json_body := inr JNull;
                                        text_body := inr "PDF engine down";
                                        blob_body := inr "" |})))
               {| reportData := sample_report []; isLoading := false; error := None |}))
  = {| reportData := sample_report [];
       isLoading := false;
       error := Some "PDF engine down" |}.
Proof.
  refine (proj1 (handleDownload_non_success
           (sample_env (inr {| ok := false; json_body := inr JNull;
                               text_body := inr "PDF engine down";
                               blob_body := inr "" |}))
           {| reportData := sample_report []; isLoading := false; error := None |}
           {| ok := false; json_body := inr JNull;
              text_body := inr "PDF engine down"; blob_body := inr "" |} _ _ _));
    reflexivity.
Defined.

(** X9: the report an analysis stores is the report the next download
    sends: after a success answer carrying a truthy [seo_report], the one
    request of [handleDownload] is a POST to [/download] whose body holds
    that very value. *)
Theorem analyze_then_download :
  forall (world_env later : env) (url : string) (st : state) (r : response)
         (data seo_report : jsval),
    network world_env (API_BASE_URL ++ "/analyze") (JObj [("url", JStr url)]) = inr r ->
    ok r = true ->
    json_body r = inr data ->
    get data "seo_report" = Ok seo_report ->
    truthy seo_report = true ->
    filter is_fetch
      (log (snd (run (handleDownload later)
                   (page (snd (run (handleAnalyze world_env url) st))))))
    = [ Fetch "http://localhost:8000/download" "POST" (JObj [("seo_report", seo_report)]) ].
Proof.
  intros world_env later url st r data seo_report Hanswer Hok Hjson Hget Htruthy.
  destruct (handleAnalyze_run world_env url st) as [_ [Hpage _]].
  assert (Hstored : page (snd (run (handleAnalyze world_env url) st))
                    = {| reportData := seo_report; isLoading := false; error := None |}).
  { rewrite Hpage. unfold analysis_outcome. now rewrite Hanswer, Hjson, Hok, Hget. }
  rewrite Hstored.
  destruct (handleDownload_run later
              {| reportData := seo_report; isLoading := false; error := None |} Htruthy)
    as [_ [_ Hlog]].
  rewrite Hlog. simpl.
  destruct (download_outcome later seo_report); reflexivity.
Qed.

Lemma analyze_then_download_witness :
  filter is_fetch
    (log (snd (run (handleDownload (sample_env (inl (sample_exn "offline"))))
                 (page (snd (run (handleAnalyze
                                    (sample_env
                                       (inr {| ok := true;
                                               json_body :=
                                                 inr (JObj [("seo_report", sample_report [])]);
                                               text_body := inr "";
                                               blob_body := inr "" |}))
                                    "https://example.com")
                               initial))))))
  = [ Fetch "http://localhost:8000/download" "POST"
        (JObj [("seo_report", sample_report [])]) ].
Proof.
  apply (analyze_then_download
           (sample_env (inr {| ok := true;
                               json_body := inr (JObj [("seo_report", sample_report [])]);
                               text_body := inr "";
                               blob_body := inr "" |}))
           (sample_env (inl (sample_exn "offline")))
           "https://example.com" initial
           {| ok := true;
              json_body := inr (JObj [("seo_report", sample_report [])]);
              text_body := inr "";
              blob_body := inr "" |}
           (JObj [("seo_report", sample_report [])]));
    reflexivity.
Defined.

(** ** Sessions *)

Lemma perform_keeps_idle :
  forall (st : state) (step : env * action),
    isLoading st = false -> isLoading (perform st step) = false.
Proof.
  intros st [world_env [url | | ]] Hidle; unfold perform; simpl.
  - destruct (handleAnalyze_run world_env url st) as [_ [Hpage _]].
    rewrite Hpage. now destruct (analysis_outcome world_env url).
  - destruct (truthy (reportData st)) eqn:Hreport.
    + destruct (handleDownload_run world_env st Hreport) as [_ [Hpage _]].
      now rewrite Hpage.
    + now rewrite (handleDownload_idle world_env st Hreport).
  - exact Hidle.
Qed.

(** X10: once the page is idle it is idle again after every handler: for
    any sequence of analyses, downloads and resets run one after another,
    against any answers of the network, [isLoading] ends [false]. *)
Theorem session_ends_idle :
  forall (steps : list (env * action)) (st : state),
    isLoading st = false -> isLoading (session steps st) = false.
Proof.
  unfold session. induction steps as [ | step steps IH]; intros st Hidle.
  - exact Hidle.
  - simpl. apply IH. now apply perform_keeps_idle.
Qed.

Lemma session_ends_idle_witness :
  isLoading
    (session [ (sample_env (inl (sample_exn "offline")), Analyze "https://example.com");
               (sample_env (inl (sample_exn "offline")), Download);
               (sample_env (inl (sample_exn "offline")), StartNew) ]
       initial)
  = false.
Proof.
  apply (session_ends_idle
           [ (sample_env (inl (sample_exn "offline")), Analyze "https://example.com");
             (sample_env (inl (sample_exn "offline")), Download);
             (sample_env (inl (sample_exn "offline")), StartNew) ]
           initial).
  reflexivity.
Defined.

(** X11: an error outlives "Start New Analysis".  After a download that
    fails with a non-success status and a readable body, a click on "Start
    New Analysis" brings the form back with the banner still above it,
    reading "Error:" and the text of that body (or "Failed to generate
    PDF." when the body is empty). *)
Theorem startNewAnalysis_keeps_error :
  forall (string_ge : string -> Z -> bool) (world_env later : env) (st : state)
         (input : form) (r : response) (errorText : string),
    truthy (reportData st) = true ->
    network world_env (API_BASE_URL ++ "/download") (JObj [("seo_report", reportData st)])
      = inr r ->
    ok r = false ->
    text_body r = inr errorText ->
    session [(world_env, Download); (later, StartNew)] st
      = {| reportData := JNull;
           isLoading := false;
           error := Some (or_else errorText "Failed to generate PDF.") |} /\
    exists tree,
      Dashboard string_ge (session [(world_env, Download); (later, StartNew)] st) input
        = Ok tree /\
      children_of tree
        = [ Elem "div" "max-w-6xl mx-auto"
              [ page_header;
                Elem "div"
                  "max-w-xl mx-auto p-4 mb-6 text-sm text-red-700 bg-red-100 rounded-lg shadow-md"
                  [ Elem "strong" "" [Text "Error:"];
                    Text " ";
                    Text (or_else errorText "Failed to generate PDF.") ];
                InputForm input false ] ] /\
      textContent tree
        = ("AI-Powered SEO Auditor"
           ++ "Autonomous crawling, Gemini analysis, and professional PDF reporting."
           ++ "Error: " ++ or_else errorText "Failed to generate PDF."
           ++ textContent (InputForm input false))%string.
Proof.
  intros string_ge world_env later st input r errorText Hreport Hanswer Hok Htext.
  assert (Hmsg : or_else errorText "Failed to generate PDF." <> "")
    by (apply or_else_nonempty; discriminate).
  assert (Hsame : or_else (or_else errorText "Failed to generate PDF.")
                    "An error occurred during PDF download."
                  = or_else errorText "Failed to generate PDF.").
  { unfold or_else at 1. apply String.eqb_neq in Hmsg. now rewrite Hmsg. }
  assert (Hstate : session [(world_env, Download); (later, StartNew)] st
                   = {| reportData := JNull;
                        isLoading := false;
                        error := Some (or_else errorText "Failed to generate PDF.") |}).
  { unfold session, perform. cbn [fold_left fst snd handler].
    destruct (handleDownload_run world_env st Hreport) as [_ [Hpage _]].
    rewrite Hpage. unfold download_outcome. rewrite Hanswer, Hok, Htext.
    cbn [message new_Error]. rewrite Hsame. reflexivity. }
  rewrite Hstate. split; [ reflexivity | ].
  rewrite (Dashboard_after_failure string_ge _ input Hmsg).
  eexists. split; [ reflexivity | ]. split; [ reflexivity | ].
  unfold page_frame, page_header, error_banner. cbn [textContent map String.concat].
  generalize (textContent (InputForm input false)) as form_text.
  generalize (or_else errorText "Failed to generate PDF.") as msg.
  intros msg form_text. reflexivity.
Qed.

Lemma startNewAnalysis_keeps_error_witness :
  session [ (sample_env (inr {| ok := false; json_body := inr JNull;
                                text_body := inr "PDF engine down";
                                blob_body := inr "" |}), Download);
            (sample_env (inl (sample_exn "offline")), StartNew) ]
    {| reportData := sample_report []; isLoading := false; error := None |}
  = {| reportData := JNull; isLoading := false; error := Some "PDF engine down" |}.
Proof.
  refine (proj1 (startNewAnalysis_keeps_error no_numeric_strings
           (sample_env (inr {| ok := false; json_body := inr JNull;
                               text_body := inr "PDF engine down";
                               blob_body := inr "" |}))
           (sample_env (inl (sample_exn "offline")))
           {| reportData := sample_report []; isLoading := false; error := None |}
           {| form_url := ""; form_error := None |}
           {| ok := false; json_body := inr JNull;
              text_body := inr "PDF engine down"; blob_body := inr "" |}
           "PDF engine down" _ _ _ _)); reflexivity.
Defined.

(** X12: submitting the form sends the analyze request exactly when the
    typed URL begins with "http://" or "https://", and the request then
    carries that URL unchanged; otherwise nothing is sent and the page
    state is untouched. *)
Theorem submit_sends_typed_url :
  forall (world_env : env) (input : form) (st : state),
    filter is_fetch (log (snd (run (submit world_env input) st)))
    = (if startsWith (form_url input) "http://" || startsWith (form_url input) "https://"
       then [ Fetch "http://localhost:8000/analyze" "POST"
                (JObj [("url", JStr (form_url input))]) ]
       else []) /\
    (startsWith (form_url input) "http://" || startsWith (form_url input) "https://" = false ->
     run (submit world_env input) st
     = (inr tt, {| page := st; log := []; bodyUsed := false |})).
Proof.
  intros world_env input st. unfold submit.
  destruct (startsWith (form_url input) "http://" || startsWith (form_url input) "https://")
    eqn:Hstarts.
  - apply orb_true_iff in Hstarts. rewrite (handleSubmit_accepts input Hstarts).
    split; [ | discriminate ].
    cbn [snd onAnalyze_calls]. unfold bindM at 1.
    destruct (handleAnalyze_run world_env (form_url input) st) as [Hdone [_ Hlog]].
    unfold run in *.
    destruct (handleAnalyze world_env (form_url input)
                {| page := st; log := []; bodyUsed := false |}) as [outcome w].
    simpl in Hdone, Hlog. subst outcome. unfold ret. cbn [snd].
    rewrite Hlog. simpl.
    destruct (analysis_outcome world_env (form_url input)); reflexivity.
  - apply orb_false_iff in Hstarts. destruct Hstarts as [Hhttp Hhttps].
    unfold handleSubmit. rewrite Hhttp, Hhttps. split; [ reflexivity | ].
    intros _. reflexivity.
Qed.

Lemma submit_sends_typed_url_witness :
  run (submit (sample_env (inl (sample_exn "offline")))
         {| form_url := "example.com"; form_error := None |})
    initial
  = (inr tt, {| page := initial; log := []; bodyUsed := false |}).
Proof.
  refine (proj2 (submit_sends_typed_url (sample_env (inl (sample_exn "offline")))
                   {| form_url := "example.com"; form_error := None |} initial) _).
  reflexivity.
Defined.

(** ** What a render needs and what it shows *)

Lemma bind_Ok_inv :
  forall (A B : Type) (m : result A) (k : A -> result B) (b : B),
    bind m k = Ok b -> exists a, m = Ok a /\ k a = Ok b.
Proof.
  intros A B m k b Hbind. destruct m as [e | a]; [ discriminate Hbind | ].
  now exists a.
Qed.

Lemma not_Ok_throws :
  forall (A : Type) (m : result A), (forall a, m <> Ok a) -> m = Throw Thrown.
Proof.
  intros A m Hnot. destruct m as [[] | a]; [ reflexivity | ].
  now contradiction (Hnot a).
Qed.

Lemma mapM_Ok_inv :
  forall (A B : Type) (f : A -> result B) (xs : list A) (ys : list B),
    mapM f xs = Ok ys -> Forall2 (fun x y => f x = Ok y) xs ys.
Proof.
  intros A B f. induction xs as [ | x xs IH]; intros ys Hmap; simpl in Hmap.
  - injection Hmap as <-. constructor.
  - apply bind_Ok_inv in Hmap. destruct Hmap as [y [Hy Hmap]].
    apply bind_Ok_inv in Hmap. destruct Hmap as [ys' [Hys Hmap]].
    injection Hmap as <-. constructor; auto.
Qed.

Lemma map_array_Ok_inv :
  forall (B : Type) (v : jsval) (f : jsval -> result B) (ys : list B),
    map_array v f = Ok ys ->
    exists items, v = JArr items /\ Forall2 (fun x y => f x = Ok y) items ys.
Proof.
  intros B v f ys Hmap. destruct v; try discriminate Hmap.
  exists items. split; [ reflexivity | ]. now apply mapM_Ok_inv.
Qed.

(** What a full render tells about the report: its two lists are arrays,
    its evaluation is neither [null] nor [undefined], and the fourth
    section is the issues table, one row per issue. *)
Lemma report_sections_Ok_inv :
  forall (string_ge : string -> Z -> bool) (report : jsval) (sections : list vnode),
    report_sections string_ge report = Ok sections ->
    exists issues keywords evaluation header summary rows grid,
      get report "issues_found" = Ok (JArr issues) /\
      get report "keyword_strategy_suggestions" = Ok (JArr keywords) /\
      get report "technical_seo_evaluation" = Ok evaluation /\
      evaluation <> JNull /\ evaluation <> JUndef /\
      Forall2 (fun issue row => issue_row issue = Ok row) issues rows /\
      sections = [ header;
                   summary;
                   Elem "h2" "text-2xl font-bold text-gray-800 mb-4"
                     [Text "🎯 Issues Found & Actions"];
                   issues_table rows;
                   grid ].
Proof.
  intros string_ge report sections Hsections. unfold report_sections in Hsections.
  apply bind_Ok_inv in Hsections. destruct Hsections as [score [_ Hsections]].
  apply bind_Ok_inv in Hsections. destruct Hsections as [summary [_ Hsections]].
  apply bind_Ok_inv in Hsections. destruct Hsections as [issues_found [Hissues Hsections]].
  apply bind_Ok_inv in Hsections. destruct Hsections as [keywords [Hkeywords Hsections]].
  apply bind_Ok_inv in Hsections. destruct Hsections as [evaluation [Hevaluation Hsections]].
  apply bind_Ok_inv in Hsections. destruct Hsections as [forecast [_ Hsections]].
  apply bind_Ok_inv in Hsections. destruct Hsections as [header [_ Hsections]].
  apply bind_Ok_inv in Hsections. destruct Hsections as [summary' [_ Hsections]].
  apply bind_Ok_inv in Hsections. destruct Hsections as [rows [Hrows Hsections]].
  apply bind_Ok_inv in Hsections. destruct Hsections as [grid [Hgrid Hsections]].
  injection Hsections as <-.
  apply map_array_Ok_inv in Hrows. destruct Hrows as [issues [-> Hrows]].
  unfold evaluation_grid in Hgrid.
  apply bind_Ok_inv in Hgrid. destruct Hgrid as [checks [Hchecks Hgrid]].
  apply bind_Ok_inv in Hgrid. destruct Hgrid as [lines [_ Hgrid]].
  apply bind_Ok_inv in Hgrid. destruct Hgrid as [forecast' [_ Hgrid]].
  apply bind_Ok_inv in Hgrid. destruct Hgrid as [tags [Htags _]].
  apply map_array_Ok_inv in Htags. destruct Htags as [words [-> _]].
  exists issues, words, evaluation, header, summary', rows, grid.
  repeat split; try assumption; intros ->; discriminate Hchecks.
Qed.

(** X14: a report with a truthy score whose [issues_found] is missing or is
    not an array makes [ReportDisplay] throw, and the page with it; nothing
    of the report is shown. *)
Theorem ReportDisplay_needs_issue_list :
  forall (string_ge : string -> Z -> bool) (report score issues : jsval)
         (isLoading : bool) (input : form) (st : state),
    get report "overall_seo_score" = Ok score ->
    truthy score = true ->
    get report "issues_found" = Ok issues ->
    is_array issues = false ->
    ReportDisplay string_ge report isLoading = Throw Thrown /\
    (reportData st = report -> Dashboard string_ge st input = Throw Thrown).
Proof.
  intros string_ge report score issues isLoading input st Hscore Htruthy Hissues Hnot.
  assert (Hreport : truthy report = true).
  { destruct report; simpl in Hscore |- *; try discriminate Hscore;
      try reflexivity; injection Hscore as <-; discriminate Htruthy. }
  assert (Hthrows : forall loading, ReportDisplay string_ge report loading = Throw Thrown).
  { intros loading. unfold ReportDisplay. rewrite Hreport, Hscore. simpl.
    rewrite Htruthy. simpl.
    rewrite (not_Ok_throws _ (report_sections string_ge report)); [ reflexivity | ].
    intros sections Hsections.
    destruct (report_sections_Ok_inv _ _ _ Hsections)
      as [items [keywords [evaluation [header [summary [rows [grid [Hitems _]]]]]]]].
    rewrite Hissues in Hitems. injection Hitems as ->. discriminate Hnot. }
  split; [ apply Hthrows | ].
  intros Hstored. unfold Dashboard. rewrite Hstored, Hreport. simpl.
  now rewrite Hthrows.
Qed.

Lemma ReportDisplay_needs_issue_list_witness :
  ReportDisplay no_numeric_strings (JObj [("overall_seo_score", JNum 50)]) false
  = Throw Thrown.
Proof.
  refine (proj1 (ReportDisplay_needs_issue_list no_numeric_strings
                   (JObj [("overall_seo_score", JNum 50)]) (JNum 50) JUndef
                   false {| form_url := ""; form_error := None |} initial _ _ _ _));
    reflexivity.
Defined.

(** A render of a report with a truthy score that does not throw is the
    frame around the report's sections and the download button. *)
Lemma ReportDisplay_Ok_inv :
  forall (string_ge : string -> Z -> bool) (report score : jsval) (isLoading : bool)
         (tree : vnode),
    ReportDisplay string_ge report isLoading = Ok tree ->
    get report "overall_seo_score" = Ok score ->
    truthy score = true ->
    exists sections,
      report_sections string_ge report = Ok sections /\
      tree = Elem "div" "bg-white shadow-xl rounded-lg p-6 lg:p-10 mt-8 border border-gray-200"
               (sections ++ [download_button isLoading]).
Proof.
  intros string_ge report score isLoading tree Hrender Hscore Htruthy.
  unfold ReportDisplay in Hrender.
  destruct (truthy report) eqn:Hreport; simpl in Hrender.
  - rewrite Hscore in Hrender. simpl in Hrender. rewrite Htruthy in Hrender.
    simpl in Hrender. apply bind_Ok_inv in Hrender.
    destruct Hrender as [sections [Hsections Htree]]. injection Htree as <-.
    now exists sections.
  - destruct report; simpl in Hreport, Hscore; try discriminate;
      injection Hscore as <-; discriminate Htruthy.
Qed.

(** X15: when [ReportDisplay] renders a report (a truthy score, no throw),
    [issues_found] is an array and the tree holds the issues table with
    exactly one row per issue, in the order of the list, each the row of
    its issue. *)
Theorem ReportDisplay_one_row_per_issue :
  forall (string_ge : string -> Z -> bool) (report score : jsval) (isLoading : bool)
         (tree : vnode),
    ReportDisplay string_ge report isLoading = Ok tree ->
    get report "overall_seo_score" = Ok score ->
    truthy score = true ->
    exists issues rows,
      get report "issues_found" = Ok (JArr issues) /\
      In (issues_table rows) (children_of tree) /\
      length rows = length issues /\
      Forall2 (fun issue row => issue_row issue = Ok row) issues rows.
Proof.
  intros string_ge report score isLoading tree Hrender Hscore Htruthy.
  destruct (ReportDisplay_Ok_inv _ _ _ _ _ Hrender Hscore Htruthy)
    as [sections [Hsections ->]].
  destruct (report_sections_Ok_inv _ _ _ Hsections)
    as [issues [keywords [evaluation [header [summary [rows [grid
          [Hissues [_ [_ [_ [_ [Hrows ->]]]]]]]]]]]]].
  exists issues, rows. split; [ exact Hissues | ].
  split; [ simpl; auto 10 | ].
  split; [ symmetry; eapply Forall2_length; exact Hrows | exact Hrows ].
Qed.

Lemma ReportDisplay_one_row_per_issue_witness :
  exists tree issues rows,
    ReportDisplay no_numeric_strings (sample_report [sample_issue; sample_issue]) false
      = Ok tree /\
    get (sample_report [sample_issue; sample_issue]) "issues_found" = Ok (JArr issues) /\
    In (issues_table rows) (children_of tree) /\
    length rows = length issues /\
    Forall2 (fun issue row => issue_row issue = Ok row) issues rows.
Proof.
  destruct (ReportDisplay no_numeric_strings (sample_report [sample_issue; sample_issue])
              false) as [thrown | tree] eqn:Hrender; [ discriminate Hrender | ].
  destruct (ReportDisplay_one_row_per_issue no_numeric_strings
              (sample_report [sample_issue; sample_issue]) (JNum 72) false tree
              Hrender eq_refl eq_refl) as [issues [rows Hrows]].
  exists tree, issues, rows. split; [ reflexivity | exact Hrows ].
Defined.

(** X16: one [null] or [undefined] entry in [issues_found] is enough to
    make the render of a report with a truthy score throw. *)
Theorem ReportDisplay_null_issue_throws :
  forall (string_ge : string -> Z -> bool) (report score : jsval) (issues : list jsval)
         (isLoading : bool),
    get report "overall_seo_score" = Ok score ->
    truthy score = true ->
    get report "issues_found" = Ok (JArr issues) ->
    In JNull issues \/ In JUndef issues ->
    ReportDisplay string_ge report isLoading = Throw Thrown.
Proof.
  intros string_ge report score issues isLoading Hscore Htruthy Hissues Hnull.
  apply not_Ok_throws. intros tree Hrender.
  destruct (ReportDisplay_Ok_inv _ _ _ _ _ Hrender Hscore Htruthy)
    as [sections [Hsections _]].
  destruct (report_sections_Ok_inv _ _ _ Hsections)
    as [issues' [keywords [evaluation [header [summary [rows [grid
          [Hissues' [_ [_ [_ [_ [Hrows _]]]]]]]]]]]]].
  rewrite Hissues in Hissues'. injection Hissues' as <-.
  assert (Hbad : exists issue, In issue issues /\ issue_row issue = Throw Thrown)
    by (destruct Hnull; [ exists JNull | exists JUndef ]; auto).
  destruct Hbad as [issue [Hin Hthrow]].
  clear Hissues Hnull. induction Hrows as [ | x row xs rows' Hrow _ IH].
  - contradiction.
  - destruct Hin as [-> | Hin]; [ rewrite Hthrow in Hrow; discriminate Hrow | auto ].
Qed.

Lemma ReportDisplay_null_issue_throws_witness :
  ReportDisplay no_numeric_strings (sample_report [sample_issue; JNull]) false
  = Throw Thrown.
Proof.
  apply (ReportDisplay_null_issue_throws no_numeric_strings
           (sample_report [sample_issue; JNull]) (JNum 72) [sample_issue; JNull] false);
    try reflexivity.
  left. simpl. auto.
Defined.

(** X17: the name of a technical check is shown with every underscore
    turned into a space and nothing else changed: the length is kept, no
    underscore is left, a name without underscores is shown as it is, and
    replacing twice changes nothing more. *)
Theorem replace_underscores_spec :
  forall key : string,
    String.length (replace_underscores key) = String.length key /\
    has_char "_" (replace_underscores key) = false /\
    (has_char "_" key = false -> replace_underscores key = key) /\
    replace_underscores (replace_underscores key) = replace_underscores key /\
    (forall i c, String.get i key = Some c ->
                 String.get i (replace_underscores key)
                 = Some (if (c =? "_")%char then " "%char else c)).
Proof.
  induction key as [ | c key [Hlength [Hnone [Hsame [Htwice Hget]]]]]; simpl.
  - repeat split; try reflexivity. intros i c Hnothing. destruct i; discriminate Hnothing.
  - destruct (Ascii.eqb_spec c "_") as [-> | Hother]; simpl.
    + rewrite Hlength, Hnone, Htwice. repeat split; try discriminate.
      intros [ | i] c' Hc'; simpl in *; [ now injection Hc' as <- | auto ].
    + apply Ascii.eqb_neq in Hother. rewrite Hother, Hlength, Hnone, Htwice. simpl.
      repeat split.
      * intros Hclean. now rewrite (Hsame Hclean).
      * intros [ | i] c' Hc'; simpl in *; [ | auto ].
        injection Hc' as <-. now rewrite Hother.
Qed.

Lemma replace_underscores_spec_witness :
  replace_underscores "mobile friendly" = "mobile friendly".
Proof.
  refine (proj1 (proj2 (proj2 (replace_underscores_spec "mobile friendly"))) _).
  reflexivity.
Defined.

(** X20: with no report stored the page renders, and its only button is
    the submit button of the form: neither the download button nor "Start
    New Analysis" is there to be clicked. *)
Theorem Dashboard_without_report :
  forall (string_ge : string -> Z -> bool) (st : state) (input : form),
    truthy (reportData st) = false ->
    exists tree,
      Dashboard string_ge st input = Ok tree /\
      buttons tree = buttons (InputForm input (isLoading st)) /\
      length (buttons tree) = 1%nat /\
      (forall loading, ~ In (download_button loading) (buttons tree)) /\
      ~ In (Button "text-indigo-600 hover:text-indigo-800 font-medium text-sm" false
              [Text "Start New Analysis"])
           (buttons tree).
Proof.
  intros string_ge st input Hnone. unfold Dashboard. rewrite Hnone. simpl negb.
  cbv iota. rewrite bind_Ok. eexists. split; [ reflexivity | ].
  assert (Hbuttons :
            buttons
              (Elem "div" "min-h-screen bg-gray-50 py-12 px-4 sm:px-6 lg:px-8"
                 [ Elem "div" "max-w-6xl mx-auto"
                     ([page_header]
                      ++ and_then (error_value (error st))
                           (error_banner (error_text (error st)))
                      ++ [InputForm input (isLoading st)]
                      ++ and_then (reportData st) new_analysis)%list ])
            = buttons (InputForm input (isLoading st))).
  { unfold and_then at 2. rewrite Hnone.
    assert (Hrest : flat_map buttons
                      match reportData st with
                      | JNum n => [Text (Z_to_string n)]
                      | _ => []
                      end = []) by (now destruct (reportData st)).
    unfold and_then. destruct (truthy (error_value (error st)));
      [ | destruct (error_value (error st)) ];
      cbn [buttons flat_map app page_header error_banner];
      rewrite ?flat_map_app, ?Hrest; cbn [flat_map app buttons];
      now rewrite ?app_nil_r. }
  rewrite Hbuttons. split; [ reflexivity | ].
  unfold InputForm. unfold and_then.
  destruct (truthy (error_value (form_error input)));
    [ | destruct (error_value (form_error input)) ];
    destruct (isLoading st); simpl;
    (split; [ reflexivity | ]);
    (split; [ intros [] [Hin | []]; discriminate Hin | intros [Hin | []]; discriminate Hin ]).
Qed.

Lemma Dashboard_without_report_witness :
  exists tree,
    Dashboard no_numeric_strings initial {| form_url := ""; form_error := None |} = Ok tree /\
    length (buttons tree) = 1%nat.
Proof.
  destruct (Dashboard_without_report no_numeric_strings initial
              {| form_url := ""; form_error := None |} eq_refl)
    as [tree [Hrender [_ [Hone _]]]].
  exists tree. split; assumption.
Defined.

(** X21: at a clock whose UTC year is negative or above 9999, the ten
    characters put into the download's file name begin with a sign, so
    they are the ISO date of no day at all. *)
Theorem slice_toISOString_out_of_range :
  forall d : date,
    year d < 0 \/ 9999 < year d ->
    forall y m dd : Z, slice0 10 (toISOString d) <> iso_date y m dd.
Proof.
  intros d Hyear y m dd. unfold toISOString.
  replace ((0 <=? year d) && (year d <=? 9999)) with false
    by (symmetry; apply andb_false_iff;
        destruct Hyear; [ left; apply Z.leb_gt | right; apply Z.leb_gt ]; lia).
  destruct (digit_is_no_sign (y / 1000)) as [Hplus Hminus].
  destruct (year d <? 0); unfold slice0, iso_date; simpl;
    intros Hsame; injection Hsame as Hfirst _; congruence.
Qed.

Lemma slice_toISOString_out_of_range_witness :
  slice0 10 (toISOString {| year := 12025; month := 3; day := 7; hours := 9;
                            minutes := 5; seconds := 0; milliseconds := 42 |})
  <> iso_date 12025 3 7.
Proof.
  apply (slice_toISOString_out_of_range
           {| year := 12025; month := 3; day := 7; hours := 9;
              minutes := 5; seconds := 0; milliseconds := 42 |}).
  right. simpl. lia.
Defined.

(** X13: a URL typed into the form that begins with neither "http://" nor
    "https://" is answered, on submission, by the form showing its error
    sentence between the input and the button, whatever error it showed
    before. *)
Theorem rejected_submit_shows_message :
  forall (st : form) (value : string) (loading : bool),
    startsWith value "http://" = false ->
    startsWith value "https://" = false ->
    textContent (InputForm (fst (handleSubmit (handleChange value st))) loading)
    = ("Autonomous SEO Audit"
       ++ "Enter a website URL to initiate the Gemini-powered analysis."
       ++ "Website URL (e.g., https://example.com)"
       ++ "Please enter a valid URL starting with http:// or https://"
       ++ (if loading then "Analyzing SEO... (May take 10-20s)" else "Analyze Website"))%string.
Proof.
  intros st value loading Hhttp Hhttps. unfold handleSubmit, handleChange.
  cbn [form_url]. rewrite Hhttp, Hhttps. now destruct loading.
Qed.

Lemma rejected_submit_shows_message_witness :
  textContent
    (InputForm (fst (handleSubmit (handleChange "example.com"
                                     {| form_url := ""; form_error := None |})))
       false)
  = "Autonomous SEO AuditEnter a website URL to initiate the Gemini-powered analysis.Website URL (e.g., https://example.com)Please enter a valid URL starting with http:// or https://Analyze Website".
Proof.
  apply (rejected_submit_shows_message {| form_url := ""; form_error := None |}
           "example.com" false); reflexivity.
Defined.

(** X18: when the lower grid of the report renders, the evaluation has
    entries and the keywords are an array; the grid holds one line per
    entry and one tag per keyword, in order, and the line of a check whose
    verdict is text reads as its name with spaces for underscores, a colon
    and the verdict. *)
Theorem evaluation_grid_lines :
  forall (evaluation forecast keywords : jsval) (grid : vnode),
    evaluation_grid evaluation forecast keywords = Ok grid ->
    exists checks words lines tags forecast',
      entries evaluation = Ok checks /\
      keywords = JArr words /\
      Forall2 (fun check line =>
                 evaluation_row check = Ok line /\
                 forall verdict, snd check = JStr verdict ->
                   textContent line
                   = (replace_underscores (fst check) ++ ":" ++ verdict)%string)
              checks lines /\
      Forall2 (fun word tag => keyword_tag word = Ok tag) words tags /\
      grid
      = Elem "div" "grid grid-cols-1 lg:grid-cols-2 gap-8 mb-8"
          [ Elem "div" ""
              (Elem "h2" "text-2xl font-bold text-gray-800 mb-4"
                 [Text "⚙️ Technical Evaluation"] :: lines);
            Elem "div" ""
              [ Elem "h2" "text-2xl font-bold text-gray-800 mb-4"
                  [Text "📈 Ranking Forecast & Keywords"];
                Elem "div" "mb-4 p-3 bg-indigo-50 rounded-lg"
                  [ Elem "h3" "font-semibold text-indigo-800" [Text "Forecast:"];
                    Elem "p" "text-sm text-gray-700" forecast' ];
                Elem "div" "p-3 bg-purple-50 rounded-lg"
                  [ Elem "h3" "font-semibold text-purple-800 mb-2"
                      [Text "Keyword Suggestions:"];
                    Elem "div" "flex flex-wrap gap-2" tags ] ] ].
Proof.
  intros evaluation forecast keywords grid Hgrid. unfold evaluation_grid in Hgrid.
  apply bind_Ok_inv in Hgrid. destruct Hgrid as [checks [Hchecks Hgrid]].
  apply bind_Ok_inv in Hgrid. destruct Hgrid as [lines [Hlines Hgrid]].
  apply bind_Ok_inv in Hgrid. destruct Hgrid as [forecast' [_ Hgrid]].
  apply bind_Ok_inv in Hgrid. destruct Hgrid as [tags [Htags Hgrid]].
  injection Hgrid as <-.
  apply map_array_Ok_inv in Htags. destruct Htags as [words [-> Htags]].
  apply mapM_Ok_inv in Hlines.
  exists checks, words, lines, tags, forecast'.
  repeat split; try assumption.
  clear Hchecks. induction Hlines as [ | [key value] line checks lines Hline _ IH];
    constructor; [ | exact IH ].
  split; [ exact Hline | ].
  intros verdict Hverdict. simpl in Hverdict. subst value.
  simpl in Hline. injection Hline as <-. simpl. now rewrite append_assoc.
Qed.

Lemma evaluation_grid_lines_witness :
  exists grid checks words lines tags forecast',
    evaluation_grid (JObj [("mobile_friendly", JStr "Yes"); ("page_speed", JStr "Slow")])
      (JStr "Stable.") (JArr [JStr "seo audit"]) = Ok grid /\
    entries (JObj [("mobile_friendly", JStr "Yes"); ("page_speed", JStr "Slow")])
      = Ok checks /\
    JArr [JStr "seo audit"] = JArr words /\
    Forall2 (fun check line =>
               evaluation_row check = Ok line /\
               forall verdict, snd check = JStr verdict ->
                 textContent line
                 = (replace_underscores (fst check) ++ ":" ++ verdict)%string)
            checks lines /\
    Forall2 (fun word tag => keyword_tag word = Ok tag) words tags /\
    grid
    = Elem "div" "grid grid-cols-1 lg:grid-cols-2 gap-8 mb-8"
        [ Elem "div" ""
            (Elem "h2" "text-2xl font-bold text-gray-800 mb-4"
               [Text "⚙️ Technical Evaluation"] :: lines);
          Elem "div" ""
            [ Elem "h2" "text-2xl font-bold text-gray-800 mb-4"
                [Text "📈 Ranking Forecast & Keywords"];
              Elem "div" "mb-4 p-3 bg-indigo-50 rounded-lg"
                [ Elem "h3" "font-semibold text-indigo-800" [Text "Forecast:"];
                  Elem "p" "text-sm text-gray-700" forecast' ];
              Elem "div" "p-3 bg-purple-50 rounded-lg"
                [ Elem "h3" "font-semibold text-purple-800 mb-2"
                    [Text "Keyword Suggestions:"];
                  Elem "div" "flex flex-wrap gap-2" tags ] ] ].
Proof.
  eexists.
  destruct (evaluation_grid_lines
              (JObj [("mobile_friendly", JStr "Yes"); ("page_speed", JStr "Slow")])
              (JStr "Stable.") (JArr [JStr "seo audit"]) _ eq_refl)
    as [checks [words [lines [tags [forecast' Hgrid]]]]].
  exists checks, words, lines, tags, forecast'. split; [ reflexivity | exact Hgrid ].
Defined.

(** X6: an analysis starts from a clean slate: the state it leaves does
    not depend on the state it started from, so no earlier report or error
    message survives it. *)
Theorem handleAnalyze_forgets_previous_state :
  forall (world_env : env) (url : string) (before other : state),
    page (snd (run (handleAnalyze world_env url) before))
    = page (snd (run (handleAnalyze world_env url) other)).
Proof.
  intros world_env url before other.
  destruct (handleAnalyze_run world_env url before) as [_ [Hbefore _]].
  destruct (handleAnalyze_run world_env url other) as [_ [Hother _]].
  now rewrite Hbefore, Hother.
Qed.
